(** * Shallow embedding of the group and message models of anthill-message

    Sources: [src/model/group.py] (GroupsModel) and [src/model/history.py]
    (MessagesHistoryModel, MessagesQuery).

    The MySQL storage is modelled as a record of tables (lists of rows, in
    insertion order).  Every storage call is logged in a trace and may fail
    with a [DatabaseError], decided by a fault script held in the state.
    Python coroutines become a state-and-error monad. *)

From Stdlib Require Import String Ascii List ZArith NArith Bool Lia.
From Stdlib Require Import Sorted Permutation.
Import ListNotations.
Open Scope string_scope.
Open Scope Z_scope.

(** ** Python values and conversions *)

(** [str(n)] on a Python int: decimal digits. *)
Fixpoint str_N_aux (fuel : nat) (n : N) (acc : string) : string :=
  match fuel with
  | O => acc
  | S f =>
      let acc' := String (ascii_of_N (48 + N.modulo n 10)) acc in
      if N.ltb n 10 then acc' else str_N_aux f (N.div n 10) acc'
  end.

Definition str_N (n : N) : string := str_N_aux (N.size_nat n) n "".

Definition str_of_Z (z : Z) : string :=
  match z with
  | Z0 => "0"
  | Zpos p => str_N (Npos p)
  | Zneg p => "-" ++ str_N (Npos p)
  end.

(** The values a row dictionary holds. *)
Inductive pyval : Type :=
| PNone
| PInt (z : Z)
| PStr (s : string).

(** [str(v)] *)
Definition py_str (v : pyval) : string :=
  match v with
  | PNone => "None"
  | PInt z => str_of_Z z
  | PStr s => s
  end.

(** Whitespace [int()] skips around a number. *)
Definition is_py_space (c : ascii) : bool :=
  match nat_of_ascii c with
  | 32 | 9 | 10 | 11 | 12 | 13 => true
  | _ => false
  end%nat.

Fixpoint drop_spaces (cs : list ascii) : list ascii :=
  match cs with
  | c :: cs' => if is_py_space c then drop_spaces cs' else cs
  | [] => []
  end.

(** The value of a run of decimal digits, [None] on any other character. *)
Fixpoint digits_value (cs : list ascii) (acc : Z) : option Z :=
  match cs with
  | [] => Some acc
  | c :: cs' =>
      let n := Z.of_nat (nat_of_ascii c) - 48 in
      if (0 <=? n) && (n <=? 9) then digits_value cs' (10 * acc + n) else None
  end.

Definition unsigned_value (cs : list ascii) : option Z :=
  match cs with
  | [] => None
  | _ => digits_value cs 0
  end.

(** [int(s)] on a string: surrounding whitespace, an optional sign, then
    decimal digits; anything else raises a ValueError. *)
Definition parse_int (s : string) : option Z :=
  let cs := rev (drop_spaces (rev (drop_spaces (list_ascii_of_string s)))) in
  match cs with
  | "-"%char :: ds => option_map Z.opp (unsigned_value ds)
  | "+"%char :: ds => unsigned_value ds
  | _ => unsigned_value cs
  end.

(** [int(v)]: [None] raises a TypeError, a string that is not a number a
    ValueError; both are [None] here. *)
Definition py_int (v : pyval) : option Z :=
  match v with
  | PNone => None
  | PInt z => Some z
  | PStr s => parse_int s
  end.

(** A Python dict as an association list; [d.get(k)] is [None] when absent. *)
Definition pydict := list (string * pyval).

Fixpoint dict_get (d : pydict) (k : string) : pyval :=
  match d with
  | [] => PNone
  | (k', v) :: d' => if String.eqb k k' then v else dict_get d' k
  end.

(** ** SQL [LIKE]: [%] matches any run of characters, [_] one character.
    (Collation case folding and the escape character play no role below.) *)
Fixpoint like (p s : string) {struct p} : bool :=
  match p with
  | EmptyString => match s with EmptyString => true | _ => false end
  | String c p' =>
      if Ascii.eqb c "%"%char then
        (fix go (s : string) : bool :=
           like p' s || match s with EmptyString => false | String _ s' => go s' end) s
      else
        match s with
        | EmptyString => false
        | String d s' => (Ascii.eqb c "_"%char || Ascii.eqb c d) && like p' s'
        end
  end.

(** ** Participation recipient key ([GroupParticipationAdapter]) *)

Record participation := {
  pa_participation_id : string;
  pa_group_id : string;
  pa_group_class : string;
  pa_group_key : string;
  pa_cluster_id : Z;
  pa_account : pyval;
  pa_role : pyval
}.

(** [GroupParticipationAdapter.__init__]: [int(data.get("cluster_id"))]
    raises on [None], hence the option. *)
Definition GroupParticipationAdapter (data : pydict) : option participation :=
  match py_int (dict_get data "cluster_id") with
  | None => None
  | Some cid =>
      Some {| pa_participation_id := py_str (dict_get data "participation_id");
              pa_group_id := py_str (dict_get data "group_id");
              pa_group_class := py_str (dict_get data "group_class");
              pa_group_key := py_str (dict_get data "group_key");
              pa_cluster_id := cid;
              pa_account := dict_get data "participation_account";
              pa_role := dict_get data "participation_role" |}
  end.

(** [calculate_recipient] *)
Definition calculate_recipient (p : participation) : string :=
  if negb (Z.eqb (pa_cluster_id p) 0)
  then pa_group_key p ++ "-" ++ str_of_Z (pa_cluster_id p)
  else pa_group_key p.

(** ** Tables *)

(** A row of [messages].  [message_flags] holds the comma-separated flag
    tokens, lower-cased and split as [MessageAdapter] does.  [message_payload]
    holds the JSON text [ujson.dumps(payload)] of a dict, kept as that dict:
    [MessageAdapter]'s [ujson.loads] gives it back, the values being strings,
    integers and [None]. *)
Record message_row := {
  message_id : Z;
  gamespace_id : Z;
  message_uuid : string;
  message_recipient_class : string;
  message_sender : string;
  message_recipient : string;
  message_time : Z;
  message_type : string;
  message_payload : pydict;
  message_delivered : bool;
  message_flags : list string
}.

(** A row of [groups]. *)
Record group_row := {
  group_id : Z;
  g_gamespace_id : Z;
  group_class : string;
  group_key : string;
  group_clustered : bool;
  group_cluster_size : Z
}.

(** A row of [group_participants]. *)
Record participant_row := {
  participation_id : Z;
  p_gamespace_id : Z;
  p_group_id : Z;
  p_group_class : string;
  p_group_key : string;
  participation_account : Z;
  participation_role : string;
  cluster_id : Z
}.

(** Modelled from the spec: the cluster tables of the external Cluster
    Assignment Service ([common.cluster], not in this repository), one entry
    per (gamespace, account, group) with its cluster id. *)
Record cluster_entry := {
  ce_gamespace : Z;
  ce_account : Z;
  ce_group_id : Z;
  ce_cluster : Z
}.

Record db := {
  messages : list message_row;
  groups : list group_row;
  group_participants : list participant_row;
  cluster_accounts : list cluster_entry;
  next_id : Z  (** auto-increment counter, shared by the tables *)
}.

Definition set_messages (ms : list message_row) (d : db) : db :=
  {| messages := ms; groups := groups d; group_participants := group_participants d;
     cluster_accounts := cluster_accounts d; next_id := next_id d |}.

Definition set_groups (gs : list group_row) (d : db) : db :=
  {| messages := messages d; groups := gs; group_participants := group_participants d;
     cluster_accounts := cluster_accounts d; next_id := next_id d |}.

Definition set_participants (ps : list participant_row) (d : db) : db :=
  {| messages := messages d; groups := groups d; group_participants := ps;
     cluster_accounts := cluster_accounts d; next_id := next_id d |}.

Definition set_clusters (cs : list cluster_entry) (d : db) : db :=
  {| messages := messages d; groups := groups d; group_participants := group_participants d;
     cluster_accounts := cs; next_id := next_id d |}.

Definition bump_id (d : db) : db :=
  {| messages := messages d; groups := groups d; group_participants := group_participants d;
     cluster_accounts := cluster_accounts d; next_id := next_id d + 1 |}.

(** ** Observable events and the state of a run *)

Inductive storage_kind := SGet | SQuery | SInsert | SExecute | SCommit.

Inductive event :=
| EvStorage (k : storage_kind) (stmt : string)
| EvReceiver (m : message_row)
| EvCluster (what : string)
| EvOnline (account : Z) (p : participation)
| EvNotify (gamespace account : Z) (recipient_class recipient message_type : string).

(** [st_faults]: the scripted outcome of the next storage (or cluster)
    calls, [true] meaning the call fails. *)
Record state := {
  st_db : db;
  st_trace : list event;  (** most recent first *)
  st_faults : list bool
}.

Definition next_fault (st : state) : bool := hd false (st_faults st).

Definition with_db (d : db) (st : state) : state :=
  {| st_db := d; st_trace := st_trace st; st_faults := st_faults st |}.

Definition log (e : event) (st : state) : state :=
  {| st_db := st_db st; st_trace := e :: st_trace st; st_faults := st_faults st |}.

Definition pop_fault (st : state) : state :=
  {| st_db := st_db st; st_trace := st_trace st; st_faults := tl (st_faults st) |}.

(** ** Errors and the coroutine monad *)

Inductive error :=
| DatabaseError (msg : string)
| DuplicateError
| MessageError (code : Z) (msg : string)
| MessageQueryError (msg : string)
| GroupError (code : Z) (msg : string)
| GroupNotFound
| GroupParticipantNotFound
| UserAlreadyJoined
| ClusterError (msg : string)
| TypeError
| MessageNotFound
| GroupExistsError.

Inductive result (A : Type) := Ok (a : A) | Err (e : error).
Arguments Ok {A} a.
Arguments Err {A} e.

Definition M (A : Type) := state -> result A * state.

Definition ret {A} (a : A) : M A := fun st => (Ok a, st).
Definition raise {A} (e : error) : M A := fun st => (Err e, st).
Definition bind {A B} (m : M A) (k : A -> M B) : M B :=
  fun st => match m st with
            | (Ok a, st1) => k a st1
            | (Err e, st1) => (Err e, st1)
            end.

Notation "x <- m ;; k" := (bind m (fun x => k))
  (at level 61, m at next level, right associativity).
Notation "m ;;; k" := (bind m (fun _ => k))
  (at level 61, right associativity).

(** [try: m except ...: h] *)
Definition catch {A} (m : M A) (h : error -> M A) : M A :=
  fun st => match m st with
            | (Ok a, st1) => (Ok a, st1)
            | (Err e, st1) => h e st1
            end.

(** [except DatabaseError as e: raise E(e.args[1])] *)
Definition on_db_error {A} (mk : string -> error) (m : M A) : M A :=
  catch m (fun e => match e with
                    | DatabaseError s => raise (mk s)
                    | e' => raise e'
                    end).

(** A storage call: logged, then failing if the fault script says so,
    otherwise running the statement [f] (which may itself reject the query). *)
Definition db_call {A} (k : storage_kind) (stmt : string)
  (f : db -> result A * db) : M A :=
  fun st =>
    let st1 := log (EvStorage k stmt) (pop_fault st) in
    if next_fault st then (Err (DatabaseError "storage fault"), st1)
    else let (r, d) := f (st_db st1) in (r, with_db d st1).

Lemma db_call_nf {A} k s (f : db -> result A * db) st :
  st_faults st = [] ->
  db_call k s f st =
    (fst (f (st_db st)),
     {| st_db := snd (f (st_db st)); st_trace := EvStorage k s :: st_trace st;
        st_faults := [] |}).
Proof.
  intros H. unfold db_call, next_fault. rewrite H. simpl.
  destruct (f (st_db st)). unfold with_db, log, pop_fault. simpl. now rewrite H.
Qed.

(** [with (yield db.acquire(auto_commit=False)) as db:] leaving the block by
    an exception rolls the tables back. *)
Definition with_tx {A} (m : M A) : M A :=
  fun st => match m st with
            | (Ok a, st1) => (Ok a, st1)
            | (Err e, st1) => (Err e, with_db (st_db st) st1)
            end.

(** ** [history.py]: MessagesHistoryModel *)

Definition mem_Z (x : Z) (l : list Z) : bool := existsb (Z.eqb x) l.

(** Modelled from the spec: [DeliveryFlags.REMOVE_DELIVERED], the
    "remove-on-delivery" flag of the package's [__init__] (not under src/),
    as the token it is written with. *)
Definition REMOVE_DELIVERED : string := "remove_delivered".

(** Modelled from the spec: [CLASS_USER], the user recipient class of the
    package's [__init__] (not under src/). *)
Definition CLASS_USER : string := "user".

(** [DeliveryFlags.REMOVE_DELIVERED in m.flags] *)
Definition has_flag (f : string) (m : message_row) : bool :=
  existsb (String.eqb f) (message_flags m).

(** [ORDER BY key DESC], by insertion (ties keep table order). *)
Fixpoint insert_desc (key : message_row -> Z) (m : message_row)
  (l : list message_row) : list message_row :=
  match l with
  | [] => [m]
  | m' :: l' => if key m' <? key m then m :: l else m' :: insert_desc key m l'
  end.

Fixpoint sort_desc (key : message_row -> Z) (l : list message_row) : list message_row :=
  match l with
  | [] => []
  | m :: l' => insert_desc key m (sort_desc key l')
  end.

(** [LIMIT offset, count]: MySQL refuses negative arguments. *)
Definition sql_limit (offset count : Z) (rows : list message_row)
  : result (list message_row) :=
  if (offset <? 0) || (count <? 0) then Err (DatabaseError "syntax error near LIMIT")
  else Ok (firstn (Z.to_nat count) (skipn (Z.to_nat offset) rows)).

(** [delete_messages_like]:
    [DELETE FROM messages WHERE message_recipient_class LIKE %s
       AND message_recipient=%s AND gamespace_id=%s]
    with the parameters [recipient_class, recipient_like, gamespace]. *)
Definition delete_messages_like (gamespace : Z) (recipient_class recipient_like : string)
  : M unit :=
  on_db_error (fun s => MessageError 500 ("Failed to delete messages: " ++ s))
    (db_call SExecute "DELETE FROM messages (delete_messages_like)"
       (fun d => (Ok tt,
          set_messages
            (filter (fun m => negb (like recipient_class (message_recipient_class m)
                                    && String.eqb (message_recipient m) recipient_like
                                    && (gamespace_id m =? gamespace)))
               (messages d)) d))).

(** [list_incoming_messages]: the WHERE clause and the read. *)
Definition incoming_where (gamespace : Z) (recipient_class recipient : string)
  (m : message_row) : bool :=
  String.eqb (message_recipient_class m) recipient_class
  && String.eqb (message_recipient m) recipient
  && (gamespace_id m =? gamespace).

Definition list_incoming_rows (gamespace : Z) (recipient_class recipient : string)
  (limit : Z) (d : db) : result (list message_row) :=
  sql_limit 0 limit
    (sort_desc message_time (filter (incoming_where gamespace recipient_class recipient)
                               (messages d))).

Definition list_incoming_messages (gamespace : Z) (recipient_class recipient : string)
  (limit : Z) : M (list message_row) :=
  on_db_error (fun s => MessageError 500 ("Failed to list incoming messages: " ++ s))
    (db_call SQuery "SELECT FROM messages (list_incoming_messages)"
       (fun d => (list_incoming_rows gamespace recipient_class recipient limit d, d))).

(** [read_incoming_messages]: the [SELECT ... FOR UPDATE] *)
Definition undelivered_where (gamespace : Z) (recipient_class recipient : string)
  (m : message_row) : bool :=
  String.eqb (message_recipient_class m) recipient_class
  && String.eqb (message_recipient m) recipient
  && (gamespace_id m =? gamespace) && negb (message_delivered m).

(** [recv = yield receiver(m)] *)
Definition call_receiver (receiver : message_row -> bool) (m : message_row) : M bool :=
  fun st => (Ok (receiver m), log (EvReceiver m) st).

(** The [for m in messages] loop, building [mark_delivered_ids] and
    [remove_ids]. *)
Fixpoint receive_loop (receiver : message_row -> bool) (ms : list message_row)
  (mark_delivered_ids remove_ids : list Z) : M (list Z * list Z) :=
  match ms with
  | [] => ret (mark_delivered_ids, remove_ids)
  | m :: ms' =>
      recv <- call_receiver receiver m ;;
      if recv then
        if has_flag REMOVE_DELIVERED m
        then receive_loop receiver ms' mark_delivered_ids (remove_ids ++ [message_id m])
        else receive_loop receiver ms' (mark_delivered_ids ++ [message_id m]) remove_ids
      else receive_loop receiver ms' mark_delivered_ids remove_ids
  end.

Definition set_delivered (m : message_row) : message_row :=
  {| message_id := message_id m; gamespace_id := gamespace_id m;
     message_uuid := message_uuid m;
     message_recipient_class := message_recipient_class m;
     message_sender := message_sender m; message_recipient := message_recipient m;
     message_time := message_time m; message_type := message_type m;
     message_payload := message_payload m;
     message_delivered := true; message_flags := message_flags m |}.

(** [UPDATE messages SET message_delivered=1 WHERE gamespace_id=%s AND message_id IN %s] *)
Definition mark_rows (gamespace : Z) (ids : list Z) (ms : list message_row) : list message_row :=
  map (fun m => if (gamespace_id m =? gamespace) && mem_Z (message_id m) ids
                then set_delivered m else m) ms.

(** [DELETE FROM messages WHERE gamespace_id=%s AND message_id IN %s] *)
Definition remove_rows (gamespace : Z) (ids : list Z) (ms : list message_row) : list message_row :=
  filter (fun m => negb ((gamespace_id m =? gamespace) && mem_Z (message_id m) ids)) ms.

Definition read_incoming_messages (gamespace : Z) (recipient_class recipient : string)
  (receiver : message_row -> bool) : M unit :=
  on_db_error (fun s => MessageError 500 ("Failed to read incoming messages: " ++ s))
   (with_tx (
      msgs <- db_call SQuery "SELECT FROM messages FOR UPDATE (read_incoming_messages)"
                (fun d => (Ok (filter (undelivered_where gamespace recipient_class recipient)
                                 (messages d)), d)) ;;
      ids <- receive_loop receiver msgs [] [] ;;
      let (mark_delivered_ids, remove_ids) := ids in
      (match mark_delivered_ids with
       | [] => ret tt
       | _ => db_call SQuery "UPDATE messages SET message_delivered=1"
                (fun d => (Ok tt, set_messages (mark_rows gamespace mark_delivered_ids
                                                  (messages d)) d))
       end) ;;;
      (match remove_ids with
       | [] => ret tt
       | _ => db_call SQuery "DELETE FROM messages WHERE message_id IN"
                (fun d => (Ok tt, set_messages (remove_rows gamespace remove_ids
                                                  (messages d)) d))
       end) ;;;
      db_call SCommit "COMMIT" (fun d => (Ok tt, d)))).

Definition pyval_eq_dec (a b : pyval) : {a = b} + {a <> b}.
Proof. decide equality; first [ apply Z.eq_dec | apply string_dec ]. Defined.

Definition pydict_eq_dec (a b : pydict) : {a = b} + {a <> b}.
Proof.
  apply list_eq_dec. intros x y. decide equality; [apply pyval_eq_dec | apply string_dec].
Defined.

(** [UNION DISTINCT] removes duplicate rows. *)
Definition message_row_eq_dec (a b : message_row) : {a = b} + {a <> b}.
Proof.
  decide equality;
    first [ apply Z.eq_dec | apply string_dec | apply bool_dec
          | apply (list_eq_dec string_dec) | apply pydict_eq_dec ].
Defined.

Fixpoint union_distinct (l : list message_row) : list message_row :=
  match l with
  | [] => []
  | m :: l' => m :: filter (fun m' => if message_row_eq_dec m m' then false else true)
                        (union_distinct l')
  end.

(** The group branch of [list_messages_account]:
    [(message_recipient_class, message_recipient) IN (SELECT group_class, group_key
       FROM groups, group_participants WHERE group_class=message_recipient_class
       AND group_key=message_recipient AND groups.group_id=group_participants.group_id
       AND participation_account=%s)] *)
Definition in_account_groups (account_id : Z) (d : db) (m : message_row) : bool :=
  existsb (fun g =>
    String.eqb (group_class g) (message_recipient_class m)
    && String.eqb (group_key g) (message_recipient m)
    && existsb (fun p => (group_id g =? p_group_id p)
                         && (participation_account p =? account_id))
               (group_participants d))
    (groups d).

(** The three SELECTs of [list_messages_account], their [UNION DISTINCT],
    [ORDER BY message_id DESC] and [LIMIT offset, limit]. *)
Definition account_feed_rows (gamespace account_id : Z) (d : db) : list message_row :=
  sort_desc message_id
    (union_distinct
       (filter (fun m => (gamespace_id m =? gamespace) && in_account_groups account_id d m)
               (messages d)
        ++ filter (fun m => (gamespace_id m =? gamespace)
                            && String.eqb (message_recipient_class m) CLASS_USER
                            && String.eqb (message_recipient m) (str_of_Z account_id))
                  (messages d)
        ++ filter (fun m => (gamespace_id m =? gamespace)
                            && String.eqb (message_sender m) (str_of_Z account_id))
                  (messages d))).

Definition list_messages_account (gamespace account_id limit offset : Z)
  : M (list message_row) :=
  if (limit <? 1) || (limit >? 10000) || (offset <? 0) || (offset >? 10000)
  then raise (MessageError 400 "Bad limit/offset")
  else
    on_db_error (fun s => MessageError 500
                   ("Failed to list incoming messages for account: " ++ s))
      (db_call SQuery "SELECT UNION DISTINCT (list_messages_account)"
         (fun d => (sql_limit offset limit (account_feed_rows gamespace account_id d), d))).

(** ** [MessagesQuery] *)

Record messages_query := {
  q_gamespace_id : Z;
  q_message_sender : option string;
  q_message_recipient_class : option string;
  q_message_recipient : option string;
  q_message_type : option string;
  q_message_delivered : option bool;
  q_offset : Z;
  q_limit : Z
}.

(** [MessagesQuery(gamespace_id, db)]: no filter, [offset = limit = 0]. *)
Definition MessagesQuery (gamespace : Z) : messages_query :=
  {| q_gamespace_id := gamespace; q_message_sender := None;
     q_message_recipient_class := None; q_message_recipient := None;
     q_message_type := None; q_message_delivered := None;
     q_offset := 0; q_limit := 0 |}.

(** Python truthiness of an optional string: [None] and [""] are false. *)
Definition truthy (o : option string) : option string :=
  match o with
  | Some s => if String.eqb s "" then None else Some s
  | None => None
  end.

(** [__values__]: the conjunction of the WHERE conditions. *)
Definition query_where (q : messages_query) (m : message_row) : bool :=
  (gamespace_id m =? q_gamespace_id q)
  && match truthy (q_message_sender q) with
     | Some s => String.eqb (message_sender m) s | None => true end
  && match truthy (q_message_recipient_class q) with
     | Some s => String.eqb (message_recipient_class m) s | None => true end
  && match truthy (q_message_recipient q) with
     | Some s => like s (message_recipient m) | None => true end
  && match truthy (q_message_type q) with
     | Some s => String.eqb (message_type m) s | None => true end
  && match q_message_delivered q with
     | Some b => Bool.eqb (message_delivered m) b | None => true end.

(** The read: [ORDER BY message_time DESC], then [LIMIT offset, limit] only
    when [self.limit] is truthy. *)
Definition query_rows (q : messages_query) (d : db) : result (list message_row) :=
  let rows := sort_desc message_time (filter (query_where q) (messages d)) in
  if q_limit q =? 0 then Ok rows else sql_limit (q_offset q) (q_limit q) rows.

Inductive query_result :=
| QNone
| QOne (m : message_row)
| QItems (items : list message_row)
| QItemsCount (items : list message_row) (count : Z).

Definition query (q : messages_query) (one count : bool) : M query_result :=
  let err := fun s => MessageQueryError ("Failed to add message: " ++ s) in
  if one then
    r <- on_db_error err (db_call SGet "SELECT FROM messages (MessagesQuery.query)"
                            (fun d => (match query_rows q d with
                                       | Ok rows => Ok (hd_error rows)
                                       | Err e => Err e end, d))) ;;
    match r with
    | None => ret QNone
    | Some m => ret (QOne m)
    end
  else
    items <- on_db_error err (db_call SQuery "SELECT FROM messages (MessagesQuery.query)"
                                (fun d => (query_rows q d, d))) ;;
    if count then
      n <- db_call SGet "SELECT FOUND_ROWS()"
             (fun d => (Ok (Z.of_nat (length (filter (query_where q) (messages d)))), d)) ;;
      ret (QItemsCount items n)
    else ret (QItems items).

(** ** [group.py]: GroupsModel *)

Record group_adapter := {
  ga_group_id : Z;
  ga_group_class : string;
  ga_key : string;
  ga_clustered : bool;
  ga_cluster_size : Z
}.

(** [GroupAdapter(row)] *)
Definition GroupAdapter (g : group_row) : group_adapter :=
  {| ga_group_id := group_id g; ga_group_class := group_class g; ga_key := group_key g;
     ga_clustered := group_clustered g; ga_cluster_size := group_cluster_size g |}.

(** The dictionary a [group_participants] row is fetched as. *)
Definition participant_dict (p : participant_row) : pydict :=
  [("participation_id", PInt (participation_id p));
   ("gamespace_id", PInt (p_gamespace_id p));
   ("group_id", PInt (p_group_id p));
   ("group_class", PStr (p_group_class p));
   ("group_key", PStr (p_group_key p));
   ("participation_account", PInt (participation_account p));
   ("participation_role", PStr (participation_role p));
   ("cluster_id", PInt (cluster_id p))].

Definition of_option {A} (o : option A) : M A :=
  match o with Some a => ret a | None => raise TypeError end.

(** Modelled from the spec: [Cluster.get_cluster(gamespace, account, group_id,
    cluster_size, auto_create=True)] of the external Cluster Assignment
    Service: an account already placed keeps its cluster; otherwise it joins
    the newest cluster of the group, or a new one when that one is full. *)
Definition get_cluster (gamespace account gid cluster_size : Z) : M Z :=
  fun st =>
    let st1 := log (EvCluster "get_cluster") (pop_fault st) in
    if next_fault st then (Err (ClusterError "cluster fault"), st1) else
    let d := st_db st1 in
    let mine := filter (fun c => (ce_gamespace c =? gamespace) && (ce_group_id c =? gid))
                       (cluster_accounts d) in
    match find (fun c => ce_account c =? account) mine with
    | Some c => (Ok (ce_cluster c), st1)
    | None =>
        let newest := fold_left (fun acc c => Z.max acc (ce_cluster c)) mine 0 in
        let used := Z.of_nat (length (filter (fun c => ce_cluster c =? newest) mine)) in
        let cid := if (0 <? newest) && (used <? cluster_size) then newest else newest + 1 in
        (Ok cid, with_db (set_clusters ({| ce_gamespace := gamespace; ce_account := account;
                                           ce_group_id := gid; ce_cluster := cid |}
                                         :: cluster_accounts d) d) st1)
    end.

(** Modelled from the spec: [Cluster.leave_cluster(gamespace, account, group_id)],
    releasing the account's slot; it may fail with [ClusterError]. *)
Definition leave_cluster (gamespace account gid : Z) : M unit :=
  fun st =>
    let st1 := log (EvCluster "leave_cluster") (pop_fault st) in
    if next_fault st then (Err (ClusterError "cluster fault"), st1) else
    let d := st_db st1 in
    (Ok tt, with_db (set_clusters
              (filter (fun c => negb ((ce_gamespace c =? gamespace) && (ce_account c =? account)
                                      && (ce_group_id c =? gid)))
                      (cluster_accounts d)) d) st1).

(** Modelled from the spec: the presence registry's [bind_account_to_group]. *)
Definition bind_account_to_group (account : Z) (p : participation) : M unit :=
  fun st => (Ok tt, log (EvOnline account p) st).

(** Modelled from the spec: the message queue façade's [add_message], backed
    by the message store's [add]: the notification is appended to [messages]. *)
Definition message_queue_add_message (gamespace account : Z)
  (recipient_class recipient message_type : string) (payload : pydict) : M unit :=
  fun st =>
    let st1 := log (EvNotify gamespace account recipient_class recipient message_type) st in
    let d := st_db st1 in
    let m := {| message_id := next_id d; gamespace_id := gamespace; message_uuid := "";
                message_recipient_class := recipient_class;
                message_sender := str_of_Z account; message_recipient := recipient;
                message_time := 0; message_type := message_type;
                message_payload := payload;
                message_delivered := false; message_flags := [] |} in
    (Ok tt, with_db (bump_id (set_messages (messages d ++ [m]) d)) st1).

Definition MESSAGE_PLAYER_JOINED : string := "player_joined".
Definition MESSAGE_PLAYER_LEFT : string := "player_left".

(** [accounts_deleted] *)
Definition accounts_deleted (gamespace : Z) (accounts : list Z) (gamespace_only : bool)
  : M unit :=
  on_db_error (fun s => MessageError 500 ("Failed to delete messages: " ++ s))
    (if gamespace_only then
       db_call SExecute "DELETE FROM group_participants (gamespace)"
         (fun d => (Ok tt, set_participants
            (filter (fun p => negb ((p_gamespace_id p =? gamespace)
                                    && mem_Z (participation_account p) accounts))
                    (group_participants d)) d))
     else
       db_call SExecute "DELETE FROM group_participants"
         (fun d => (Ok tt, set_participants
            (filter (fun p => negb (mem_Z (participation_account p) accounts))
                    (group_participants d)) d))).

(** [delete_group] *)
Definition delete_group (gamespace_id : Z) (group : group_adapter) : M unit :=
  let gid := ga_group_id group in
  catch (delete_messages_like gamespace_id (ga_group_class group) (ga_key group ++ "-%"))
        (fun e => match e with
                  | MessageError _ s => raise (GroupError 500 ("Failed to delete group's messages: " ++ s))
                  | e' => raise e'
                  end) ;;;
  on_db_error (fun s => GroupError 500 ("Failed to delete a group: " ++ s))
    (db_call SExecute "DELETE FROM groups"
       (fun d => (Ok tt, set_groups
          (filter (fun g => negb ((group_id g =? gid) && (g_gamespace_id g =? gamespace_id)))
                  (groups d)) d))).

(** Modelled from the spec: the storage's [execute(query) -> ok] returns an
    acknowledgement that carries no generated id ([insert] is the call that
    returns one); the acknowledgement is Python's [None]. *)
Definition execute_ok : pyval := PNone.

(** [INSERT INTO group_participants ...] through [db.execute]; the unique
    (group, account) pair raises [DuplicateError]. *)
Definition insert_participant (gamespace gid : Z) (gclass gkey : string)
  (account : Z) (role : string) (cid : Z) (d : db) : result pyval * db :=
  if existsb (fun p => (p_group_id p =? gid) && (participation_account p =? account))
             (group_participants d)
  then (Err DuplicateError, d)
  else (Ok execute_ok,
        bump_id (set_participants
          (group_participants d ++
             [{| participation_id := next_id d; p_gamespace_id := gamespace;
                 p_group_id := gid; p_group_class := gclass; p_group_key := gkey;
                 participation_account := account; participation_role := role;
                 cluster_id := cid |}]) d)).

(** [join_group]; [notify] is the JSON dict, falsy when empty. *)
Definition join_group (gamespace : Z) (group : group_adapter) (account : Z)
  (role : string) (notify : pydict) (authoritative : bool) : M participation :=
  let gid := ga_group_id group in
  cid <- (if ga_clustered group
          then get_cluster gamespace account gid (ga_cluster_size group)
          else ret 0) ;;
  participation_id <-
    catch (db_call SExecute "INSERT INTO group_participants"
             (insert_participant gamespace gid (ga_group_class group) (ga_key group)
                                 account role cid))
          (fun e => match e with
                    | DuplicateError => raise UserAlreadyJoined
                    | DatabaseError s => raise (GroupError 500 ("Failed to join a group: " ++ s))
                    | e' => raise e'
                    end) ;;
  participation <- of_option (GroupParticipationAdapter
    [("participation_id", participation_id);
     ("group_id", PInt gid);
     ("group_class", PStr (ga_group_class group));
     ("group_key", PStr (ga_key group));
     ("cluster_id", PInt cid);
     ("account", PInt account);
     ("role", PStr role)]) ;;
  bind_account_to_group account participation ;;;
  (match notify with
   | [] => ret tt
   | _ => message_queue_add_message gamespace account (ga_group_class group)
            (calculate_recipient participation) MESSAGE_PLAYER_JOINED notify
   end) ;;;
  ret participation.

(** [find_group_participant] *)
Definition find_group_participant (gamespace gid account : Z) : M participation :=
  participant <-
    on_db_error (fun s => GroupError 500 ("Failed to get group participant: " ++ s))
      (db_call SGet "SELECT FROM group_participants (find_group_participant)"
         (fun d => (Ok (find (fun p => (p_group_id p =? gid)
                                      && (participation_account p =? account)
                                      && (p_gamespace_id p =? gamespace))
                             (group_participants d)), d))) ;;
  match participant with
  | None => raise GroupParticipantNotFound
  | Some p => of_option (GroupParticipationAdapter (participant_dict p))
  end.

(** [leave_group] *)
Definition leave_group (gamespace : Z) (group : group_adapter) (account : Z)
  (notify : pydict) (authoritative : bool) : M unit :=
  participation <- find_group_participant gamespace (ga_group_id group) account ;;
  on_db_error (fun s => GroupError 500 ("Failed to leave a group: " ++ s))
    (db_call SExecute "DELETE FROM group_participants (leave_group)"
       (fun d => (Ok tt, set_participants
          (filter (fun p => negb ((p_gamespace_id p =? gamespace)
                                  && String.eqb (str_of_Z (participation_id p))
                                                (pa_participation_id participation)))
                  (group_participants d)) d))) ;;;
  (if negb (pa_cluster_id participation =? 0) then
     catch (leave_cluster gamespace account (ga_group_id group))
           (fun e => match e with ClusterError _ => ret tt | e' => raise e' end)
   else ret tt) ;;;
  (match notify with
   | [] => ret tt
   | _ => message_queue_add_message gamespace account (ga_group_class group)
            (calculate_recipient participation) MESSAGE_PLAYER_LEFT notify
   end).

(** [list_groups_account_participates]: the rows of
    [SELECT g.*, p.* FROM group_participants AS p INNER JOIN groups AS g
       ON p.group_id=g.group_id
     WHERE p.participation_account=%s AND p.gamespace_id=%s], each turned into a
    [GroupAndParticipationAdapter]. *)
Definition participates_rows (gamespace account_id : Z) (d : db)
  : list (group_row * participant_row) :=
  flat_map (fun p =>
    if (participation_account p =? account_id) && (p_gamespace_id p =? gamespace)
    then map (fun g => (g, p)) (filter (fun g => p_group_id p =? group_id g) (groups d))
    else [])
    (group_participants d).

Definition list_groups_account_participates (gamespace account_id : Z)
  : M (list (group_row * participant_row)) :=
  on_db_error (fun s => GroupError 500 ("Failed to list group account participate: " ++ s))
    (db_call SQuery "SELECT FROM group_participants JOIN groups"
       (fun d => (Ok (participates_rows gamespace account_id d), d))).

(** ** Concrete rows for the examples *)

Definition mk_msg (id gs : Z) (cls rcpt sender : string) (time : Z)
  (delivered : bool) (flags : list string) : message_row :=
  {| message_id := id; gamespace_id := gs; message_uuid := "";
     message_recipient_class := cls; message_sender := sender;
     message_recipient := rcpt; message_time := time; message_type := "chat";
     message_payload := []; message_delivered := delivered; message_flags := flags |}.

Definition mk_db (ms : list message_row) (gs : list group_row)
  (ps : list participant_row) : db :=
  {| messages := ms; groups := gs; group_participants := ps;
     cluster_accounts := []; next_id := 42 |}.

Definition mk_state (d : db) : state :=
  {| st_db := d; st_trace := []; st_faults := [] |}.

Definition guild : group_row :=
  {| group_id := 1; g_gamespace_id := 1; group_class := "clan"; group_key := "guild";
     group_clustered := true; group_cluster_size := 1000 |}.

Definition guild_member : participant_row :=
  {| participation_id := 10; p_gamespace_id := 1; p_group_id := 1;
     p_group_class := "clan"; p_group_key := "guild"; participation_account := 5;
     participation_role := "member"; cluster_id := 7 |}.

Definition raid : group_row :=
  {| group_id := 1; g_gamespace_id := 2; group_class := "clan"; group_key := "raid";
     group_clustered := false; group_cluster_size := 1000 |}.

Definition member_participation (cid : Z) : participation :=
  {| pa_participation_id := "10"; pa_group_id := "1"; pa_group_class := "clan";
     pa_group_key := "guild"; pa_cluster_id := cid;
     pa_account := PInt 5; pa_role := PStr "member" |}.

(** ** Monad facts *)

Lemma bind_ok {A B} (m : M A) (k : A -> M B) st b st' :
  bind m k st = (Ok b, st') ->
  exists a st1, m st = (Ok a, st1) /\ k a st1 = (Ok b, st').
Proof.
  unfold bind. destruct (m st) as [[a|e] st1]; intros H; [eauto | discriminate].
Qed.

Lemma on_db_error_ok {A} mk (m : M A) st a st' :
  on_db_error mk m st = (Ok a, st') -> m st = (Ok a, st').
Proof.
  unfold on_db_error, catch. destruct (m st) as [[a'|e] st1]; [auto|].
  destruct e; unfold raise; discriminate.
Qed.

Lemma with_tx_ok {A} (m : M A) st a st' :
  with_tx m st = (Ok a, st') -> m st = (Ok a, st').
Proof.
  unfold with_tx. destruct (m st) as [[a'|e] st1]; [auto | discriminate].
Qed.

Lemma db_call_ok {A} k s (f : db -> result A * db) st a st' :
  db_call k s f st = (Ok a, st') ->
  next_fault st = false /\ f (st_db st) = (Ok a, st_db st') /\
  st_trace st' = EvStorage k s :: st_trace st.
Proof.
  unfold db_call. destruct (next_fault st); [discriminate|].
  simpl. destruct (f (st_db st)) as [r d] eqn:Hf. intros H. inversion H; subst.
  simpl. auto.
Qed.

(** ** C9: the recipient key of a participation *)

(** C9: the recipient key of a participation is its [group_key] when its
    [cluster_id] is 0 and [group_key ++ "-" ++ str(cluster_id)] otherwise; for
    [group_key = "guild"] it is "guild-7" at cluster 7 and "guild" at cluster 0. *)
Theorem calculate_recipient_key :
  (forall p : participation,
     calculate_recipient p =
       if pa_cluster_id p =? 0 then pa_group_key p
       else pa_group_key p ++ "-" ++ str_of_Z (pa_cluster_id p)) /\
  calculate_recipient (member_participation 7) = "guild-7" /\
  calculate_recipient (member_participation 0) = "guild".
Proof.
  split; [|split; reflexivity].
  intros p. unfold calculate_recipient. destruct (pa_cluster_id p =? 0); reflexivity.
Qed.

(** ** C7: pagination bounds of [list_messages_account] *)

(** C7: with [limit] outside [1,10000] or [offset] outside [0,10000],
    [list_messages_account] raises [MessageError 400] (the validation error)
    and returns the state it was given: no storage call is logged and no table
    changes. *)
Theorem list_messages_account_bad_window :
  forall gamespace account_id limit offset st,
    (limit < 1 \/ 10000 < limit \/ offset < 0 \/ 10000 < offset) ->
    list_messages_account gamespace account_id limit offset st
      = (Err (MessageError 400 "Bad limit/offset"), st).
Proof.
  intros g a limit offset st Hb. unfold list_messages_account.
  replace ((limit <? 1) || (limit >? 10000) || (offset <? 0) || (offset >? 10000))
    with true; [reflexivity|].
  symmetry. rewrite !orb_true_iff, !Z.ltb_lt, !Z.gtb_lt. tauto.
Qed.

Lemma list_messages_account_bad_window_witness :
  list_messages_account 1 5 0 0 (mk_state (mk_db [] [] []))
    = (Err (MessageError 400 "Bad limit/offset"), mk_state (mk_db [] [] [])) /\
  list_messages_account 1 5 10001 0 (mk_state (mk_db [] [] []))
    = (Err (MessageError 400 "Bad limit/offset"), mk_state (mk_db [] [] [])) /\
  list_messages_account 1 5 100 (-1) (mk_state (mk_db [] [] []))
    = (Err (MessageError 400 "Bad limit/offset"), mk_state (mk_db [] [] [])) /\
  list_messages_account 1 5 100 10001 (mk_state (mk_db [] [] []))
    = (Err (MessageError 400 "Bad limit/offset"), mk_state (mk_db [] [] [])).
Proof.
  split; [|split; [|split]]; apply list_messages_account_bad_window; lia.
Defined.

(** ** C4: a failed message cleanup leaves the group row *)

(** C4: when the message-cleanup phase ([delete_messages_like]) of
    [delete_group] fails, [delete_group] raises [GroupError 500] in the state
    the cleanup left, and the [groups] table is the one it started with. *)
Theorem delete_group_cleanup_failure :
  forall gamespace group st e st1,
    delete_messages_like gamespace (ga_group_class group) (ga_key group ++ "-%") st
      = (Err e, st1) ->
    exists msg,
      delete_group gamespace group st = (Err (GroupError 500 msg), st1) /\
      groups (st_db st1) = groups (st_db st).
Proof.
  intros g grp st e st1 H.
  assert (Hdb : st_db st1 = st_db st /\ exists s, e = MessageError 500 s).
  { revert H. unfold delete_messages_like, on_db_error, catch, db_call.
    destruct (next_fault st); simpl; intros H; inversion H; subst; simpl; eauto. }
  destruct Hdb as [Hdb [s ->]].
  unfold delete_group, bind, catch. rewrite H. simpl.
  eexists. split; [reflexivity|]. now rewrite Hdb.
Qed.

Lemma delete_group_cleanup_failure_witness :
  exists msg,
    delete_group 1 (GroupAdapter guild)
      {| st_db := mk_db [] [guild] []; st_trace := []; st_faults := [true] |}
      = (Err (GroupError 500 msg),
         snd (delete_messages_like 1 "clan" "guild-%"
                {| st_db := mk_db [] [guild] []; st_trace := []; st_faults := [true] |})) /\
    groups (st_db (snd (delete_messages_like 1 "clan" "guild-%"
                {| st_db := mk_db [] [guild] []; st_trace := []; st_faults := [true] |})))
      = groups (mk_db [] [guild] []).
Proof.
  apply (delete_group_cleanup_failure 1 (GroupAdapter guild)
           {| st_db := mk_db [] [guild] []; st_trace := []; st_faults := [true] |}
           (MessageError 500 "Failed to delete messages: storage fault")).
  vm_compute. reflexivity.
Defined.

(** ** C8: leaving a group one has not joined *)

Lemma find_none_of_forall {A} (f : A -> bool) l :
  Forall (fun x => f x = false) l -> find f l = None.
Proof.
  induction 1 as [|x l Hx _ IH]; simpl; [reflexivity|]. now rewrite Hx.
Qed.

(** C8: when [group_participants] holds no row for the group, the account and
    the gamespace (and the lookup's storage read does not fail),
    [leave_group] raises [GroupParticipantNotFound]; the tables are unchanged
    and the only event is the lookup read: no delete, no cluster call, no
    notification. *)
Theorem leave_group_not_joined :
  forall gamespace group account notify authoritative st,
    Forall (fun p => ~ (p_group_id p = ga_group_id group /\
                        participation_account p = account /\
                        p_gamespace_id p = gamespace))
           (group_participants (st_db st)) ->
    next_fault st = false ->
    exists st',
      leave_group gamespace group account notify authoritative st
        = (Err GroupParticipantNotFound, st') /\
      st_db st' = st_db st /\
      st_trace st' =
        EvStorage SGet "SELECT FROM group_participants (find_group_participant)"
          :: st_trace st.
Proof.
  intros g grp a notify auth st Hnone Hf.
  assert (Hfind : find (fun p => (p_group_id p =? ga_group_id grp)
                                 && (participation_account p =? a)
                                 && (p_gamespace_id p =? g))
                       (group_participants (st_db st)) = None).
  { apply find_none_of_forall. eapply Forall_impl; [|exact Hnone].
    intros p Hp. simpl in Hp.
    destruct (p_group_id p =? ga_group_id grp) eqn:E1; [|reflexivity].
    destruct (participation_account p =? a) eqn:E2; [|reflexivity].
    destruct (p_gamespace_id p =? g) eqn:E3; [|reflexivity].
    apply Z.eqb_eq in E1, E2, E3. exfalso. tauto. }
  unfold leave_group, find_group_participant, bind, on_db_error, catch, db_call.
  rewrite Hf. simpl. rewrite Hfind. simpl.
  eexists. repeat split.
Qed.

Lemma leave_group_not_joined_witness :
  exists st',
    leave_group 1 (GroupAdapter guild) 6 [("text", PStr "bye")] false
      (mk_state (mk_db [] [guild] [guild_member]))
      = (Err GroupParticipantNotFound, st') /\
    st_db st' = st_db (mk_state (mk_db [] [guild] [guild_member])) /\
    st_trace st' =
      EvStorage SGet "SELECT FROM group_participants (find_group_participant)"
        :: st_trace (mk_state (mk_db [] [guild] [guild_member])).
Proof.
  apply leave_group_not_joined.
  - repeat constructor. simpl. lia.
  - reflexivity.
Defined.

(** ** C1: what a group deletion leaves of the group's messages *)

Definition to_guild_1 : message_row := mk_msg 1 1 "clan" "guild-1" "9" 100 false [].
Definition to_guild : message_row := mk_msg 2 1 "clan" "guild" "9" 101 false [].

(** C1 (evaluated): deleting the clustered group "guild" of class "clan"
    succeeds and removes the group row, yet the messages addressed to
    "guild-1" (its cluster 1) and to "guild" survive: the cleanup statement
    matches [message_recipient_class LIKE 'clan'] and
    [message_recipient = 'guild-%'] literally. *)
Theorem delete_group_leaves_cluster_messages :
  let r := delete_group 1 (GroupAdapter guild)
             (mk_state (mk_db [to_guild_1; to_guild] [guild] [])) in
  fst r = Ok tt /\
  messages (st_db (snd r)) = [to_guild_1; to_guild] /\
  groups (st_db (snd r)) = [].
Proof. vm_compute. repeat split. Qed.

(** ** C5: the Participation returned by [join_group] *)

(** C5 (evaluated): joining account 5 with role "member" succeeds and
    inserts a row with participation id 42, account 5 and role "member", but
    the returned Participation has [participation_id = "None"] (the
    acknowledgement of [db.execute]), and [account] and [role] are [None]:
    the dict passed to the adapter uses the keys "account" and "role" while
    the adapter reads "participation_account" and "participation_role". *)
Theorem join_group_participation_fields :
  let r := join_group 1 (GroupAdapter guild) 5 "member" [] false
             (mk_state (mk_db [] [guild] [])) in
  fst r = Ok {| pa_participation_id := "None"; pa_group_id := "1";
                pa_group_class := "clan"; pa_group_key := "guild";
                pa_cluster_id := 1; pa_account := PNone; pa_role := PNone |} /\
  group_participants (st_db (snd r)) =
    [{| participation_id := 42; p_gamespace_id := 1; p_group_id := 1;
        p_group_class := "clan"; p_group_key := "guild";
        participation_account := 5; participation_role := "member";
        cluster_id := 1 |}].
Proof. vm_compute. split; reflexivity. Qed.

(** ** C2: the account feed and cluster recipients *)

Definition to_cluster_7 : message_row := mk_msg 1 1 "clan" "guild-7" "9" 100 false [].

(** C2 (evaluated): account 5 participates in the clustered group "guild"
    with cluster 7, whose recipient key is "guild-7"; a message of the same
    gamespace addressed to ("clan", "guild-7") by account 9 is not in
    [list_messages_account 1 5 100 0]: the group branch compares
    [message_recipient] with [group_key] only. *)
Theorem list_messages_account_misses_cluster_key :
  calculate_recipient (member_participation (cluster_id guild_member)) = "guild-7" /\
  fst (list_messages_account 1 5 100 0
         (mk_state (mk_db [to_cluster_7] [guild] [guild_member]))) = Ok [].
Proof. vm_compute. split; reflexivity. Qed.

(** ** C10: tenant isolation of the join in [list_groups_account_participates] *)

(** C10 (evaluated): group id 1 exists in gamespace 1 ("guild") and in
    gamespace 2 ("raid"); account 5 participates in group 1 of gamespace 1.
    [list_groups_account_participates 1 5] returns the row of gamespace 2's
    group "raid" as well: its join has no gamespace condition. *)
Theorem list_groups_account_participates_other_gamespace :
  fst (list_groups_account_participates 1 5
         (mk_state (mk_db [] [guild; raid] [guild_member])))
    = Ok [(guild, guild_member); (raid, guild_member)] /\
  g_gamespace_id raid = 2.
Proof. vm_compute. split; reflexivity. Qed.

(** ** C6: the query builder and its window *)

Definition window_query (gamespace offset limit : Z) : messages_query :=
  {| q_gamespace_id := gamespace; q_message_sender := None;
     q_message_recipient_class := None; q_message_recipient := None;
     q_message_type := None; q_message_delivered := None;
     q_offset := offset; q_limit := limit |}.

Definition query_trace : list event :=
  [EvStorage SQuery "SELECT FROM messages (MessagesQuery.query)"].

(** C6 (counterexample): the builder issues the read and returns rows with
    [limit = 20000], with [limit = 0] (no LIMIT clause) and with
    [offset = 10001]; none of these is rejected before the read. *)
Lemma messages_query_unvalidated_window :
  query (window_query 1 0 20000) false false
        (mk_state (mk_db [to_guild_1; to_guild] [] []))
    = (Ok (QItems [to_guild; to_guild_1]),
       {| st_db := mk_db [to_guild_1; to_guild] [] []; st_trace := query_trace;
          st_faults := [] |}) /\
  query (window_query 1 0 0) false false
        (mk_state (mk_db [to_guild_1; to_guild] [] []))
    = (Ok (QItems [to_guild; to_guild_1]),
       {| st_db := mk_db [to_guild_1; to_guild] [] []; st_trace := query_trace;
          st_faults := [] |}) /\
  query (window_query 1 10001 10) false false
        (mk_state (mk_db [to_guild_1; to_guild] [] []))
    = (Ok (QItems []),
       {| st_db := mk_db [to_guild_1; to_guild] [] []; st_trace := query_trace;
          st_faults := [] |}).
Proof. vm_compute. repeat split. Qed.

(** The answer [query] gives in each of its modes for a window of rows
    [items] and a [FOUND_ROWS()] count [n]. *)
Definition query_answer (one count : bool) (items : list message_row) (n : Z) : query_result :=
  if one then match hd_error items with None => QNone | Some m => QOne m end
  else if count then QItemsCount items n else QItems items.

Lemma query_rows_cases q d :
  let rows := sort_desc message_time (filter (query_where q) (messages d)) in
  (q_limit q = 0 -> query_rows q d = Ok rows) /\
  (0 <= q_offset q -> 0 < q_limit q ->
   query_rows q d = Ok (firstn (Z.to_nat (q_limit q)) (skipn (Z.to_nat (q_offset q)) rows))) /\
  (q_limit q <> 0 -> q_offset q < 0 \/ q_limit q < 0 ->
   exists s, query_rows q d = Err (DatabaseError s)).
Proof.
  intros rows. unfold query_rows, sql_limit. split; [|split].
  - intros E. now rewrite E.
  - intros Ho Hl. replace (q_limit q =? 0) with false by (symmetry; apply Z.eqb_neq; lia).
    replace ((q_offset q <? 0) || (q_limit q <? 0)) with false; [reflexivity|].
    symmetry. apply orb_false_iff. split; apply Z.ltb_ge; lia.
  - intros Hn Hneg. apply Z.eqb_neq in Hn. rewrite Hn.
    replace ((q_offset q <? 0) || (q_limit q <? 0)) with true; [eexists; reflexivity|].
    symmetry. apply orb_true_iff. destruct Hneg; [left|right]; now apply Z.ltb_lt.
Qed.

(** C6 (as the code has it): the builder validates neither bound, and the
    read is issued in every case.  With the storage working, [query] in each
    of its modes (one row, list, list with count) answers from the
    gamespace's matching rows, newest first: all of them when [limit] is 0
    (no LIMIT clause, whatever [offset]); the window [LIMIT offset, limit]
    when [limit] is positive and [offset] non-negative, however large; and
    when [limit] is non-zero and [offset] or [limit] is negative, the storage
    refuses the LIMIT clause and [query] raises [MessageQueryError].  The
    count is the number of all matching rows.  No table is changed. *)
Theorem messages_query_window :
  forall q one count st,
    st_faults st = [] ->
    let rows := sort_desc message_time (filter (query_where q) (messages (st_db st))) in
    let n := Z.of_nat (length (filter (query_where q) (messages (st_db st)))) in
    let r := query q one count st in
    st_db (snd r) = st_db st /\
    (exists k, In (EvStorage k "SELECT FROM messages (MessagesQuery.query)") (st_trace (snd r))) /\
    (q_limit q = 0 -> fst r = Ok (query_answer one count rows n)) /\
    (0 <= q_offset q -> 0 < q_limit q ->
     fst r = Ok (query_answer one count
                   (firstn (Z.to_nat (q_limit q)) (skipn (Z.to_nat (q_offset q)) rows)) n)) /\
    (q_limit q <> 0 -> q_offset q < 0 \/ q_limit q < 0 ->
     exists s, fst r = Err (MessageQueryError ("Failed to add message: " ++ s))).
Proof.
  intros q one count st Hf rows n r.
  unfold r, query, bind, on_db_error, catch.
  destruct one; [|destruct count]; rewrite db_call_nf by exact Hf; cbn [fst snd];
    remember (query_rows q (st_db st)) as QR eqn:E; symmetry in E;
    destruct QR as [rs|e]; cbn [fst snd];
    try (destruct e; cbn [fst snd raise]);
    try (rewrite db_call_nf by reflexivity; cbn [fst snd]);
    destruct (query_rows_cases q (st_db st)) as [H0 [Hw Hneg]].
  all: split; [try destruct (hd_error rs); reflexivity|].
  all: split; [try destruct (hd_error rs); eexists; simpl; tauto|].
  all: split; [|split].
  all: first
    [ intros Hl; apply H0 in Hl; rewrite Hl in E; injection E as <-;
      unfold rows, query_answer; try destruct (hd_error _); reflexivity
    | intros Ho Hl; rewrite (Hw Ho Hl) in E; injection E as <-;
      unfold rows, query_answer; try destruct (hd_error _); reflexivity
    | intros Hn Hng; destruct (Hneg Hn Hng) as [s Hs]; rewrite Hs in E;
      injection E as <-; exists s; reflexivity
    | intros Hl; apply H0 in Hl; congruence
    | intros Ho Hl; rewrite (Hw Ho Hl) in E; discriminate
    | intros Hn Hng; destruct (Hneg Hn Hng) as [s Hs]; congruence ].
Qed.

Lemma messages_query_window_witness :
  fst (query (window_query 1 0 20000) false false (mk_state (mk_db [to_guild_1; to_guild] [] [])))
    = Ok (QItems [to_guild; to_guild_1]) /\
  fst (query (window_query 1 (-5) 0) false true (mk_state (mk_db [to_guild_1; to_guild] [] [])))
    = Ok (QItemsCount [to_guild; to_guild_1] 2) /\
  fst (query (window_query 1 10001 10) true false (mk_state (mk_db [to_guild_1; to_guild] [] [])))
    = Ok QNone /\
  (exists s, fst (query (window_query 1 (-1) 10) false false
                   (mk_state (mk_db [to_guild_1; to_guild] [] [])))
             = Err (MessageQueryError ("Failed to add message: " ++ s))).
Proof.
  split; [|split; [|split]].
  - rewrite (proj1 (proj2 (proj2 (proj2 (messages_query_window (window_query 1 0 20000) false false
               (mk_state (mk_db [to_guild_1; to_guild] [] [])) eq_refl)))));
      [vm_compute; reflexivity | simpl; lia | simpl; lia].
  - rewrite (proj1 (proj2 (proj2 (messages_query_window (window_query 1 (-5) 0) false true
               (mk_state (mk_db [to_guild_1; to_guild] [] [])) eq_refl))));
      [vm_compute; reflexivity | reflexivity].
  - rewrite (proj1 (proj2 (proj2 (proj2 (messages_query_window (window_query 1 10001 10) true false
               (mk_state (mk_db [to_guild_1; to_guild] [] [])) eq_refl)))));
      [vm_compute; reflexivity | simpl; lia | simpl; lia].
  - apply (proj2 (proj2 (proj2 (proj2 (messages_query_window (window_query 1 (-1) 10) false false
               (mk_state (mk_db [to_guild_1; to_guild] [] [])) eq_refl)))));
      simpl; [discriminate | left; lia].
Defined.

(** ** C3: the delivery protocol of [read_incoming_messages] *)

Lemma mem_Z_In x l : mem_Z x l = true <-> In x l.
Proof.
  unfold mem_Z. rewrite existsb_exists. split.
  - intros [y [Hy E]]. apply Z.eqb_eq in E. now subst.
  - intros H. exists x. split; [exact H | apply Z.eqb_refl].
Qed.

Lemma NoDup_map_inj {A B} (f : A -> B) l x y :
  NoDup (map f l) -> In x l -> In y l -> f x = f y -> x = y.
Proof.
  induction l as [|a l IH]; simpl; [tauto|].
  intros Hnd Hx Hy E. inversion Hnd as [|? ? Hnin Hnd']; subst.
  destruct Hx as [<-|Hx], Hy as [<-|Hy]; auto.
  - exfalso. apply Hnin. rewrite E. now apply in_map.
  - exfalso. apply Hnin. rewrite <- E. now apply in_map.
Qed.

Lemma insert_desc_In key a x l : In x (insert_desc key a l) <-> a = x \/ In x l.
Proof.
  induction l as [|b l IH]; simpl; [tauto|].
  destruct (key b <? key a); simpl; [tauto|]. rewrite IH. tauto.
Qed.

Lemma sort_desc_In key x l : In x (sort_desc key l) <-> In x l.
Proof.
  induction l as [|a l IH]; simpl; [tauto|]. rewrite insert_desc_In, IH. tauto.
Qed.

Lemma insert_desc_length key a l : length (insert_desc key a l) = S (length l).
Proof.
  induction l as [|b l IH]; simpl; [reflexivity|].
  destruct (key b <? key a); simpl; [reflexivity | now rewrite IH].
Qed.

Lemma sort_desc_length key l : length (sort_desc key l) = length l.
Proof.
  induction l as [|a l IH]; simpl; [reflexivity|]. now rewrite insert_desc_length, IH.
Qed.

Lemma filter_length_le {A} (f : A -> bool) l : (length (filter f l) <= length l)%nat.
Proof.
  induction l as [|a l IH]; simpl; [reflexivity|]. destruct (f a); simpl; lia.
Qed.

(** The read of [list_incoming_messages] with a limit covering the table
    returns every row its WHERE clause selects. *)
Lemma list_incoming_rows_all gamespace recipient_class recipient d m :
  In m (messages d) -> incoming_where gamespace recipient_class recipient m = true ->
  exists rows,
    list_incoming_rows gamespace recipient_class recipient
      (Z.of_nat (length (messages d))) d = Ok rows /\ In m rows.
Proof.
  intros Hin Hw. unfold list_incoming_rows, sql_limit. simpl.
  replace (Z.of_nat (length (messages d)) <? 0) with false
    by (symmetry; apply Z.ltb_ge; lia).
  eexists. split; [reflexivity|].
  rewrite firstn_all2.
  - apply sort_desc_In, filter_In. auto.
  - rewrite sort_desc_length, Nat2Z.id. apply filter_length_le.
Qed.

Section Delivery.
Variable receiver : message_row -> bool.

(** The ids the loop collects: (to mark delivered, to remove). *)
Fixpoint loop_ids (ms : list message_row) : list Z * list Z :=
  match ms with
  | [] => ([], [])
  | m :: ms' =>
      let (k, r) := loop_ids ms' in
      if receiver m then
        if has_flag REMOVE_DELIVERED m then (k, message_id m :: r)
        else (message_id m :: k, r)
      else (k, r)
  end.

Lemma receive_loop_run ms mk rm st :
  receive_loop receiver ms mk rm st =
    (Ok ((mk ++ fst (loop_ids ms))%list, (rm ++ snd (loop_ids ms))%list),
     {| st_db := st_db st; st_trace := (rev (map EvReceiver ms) ++ st_trace st)%list;
        st_faults := st_faults st |}).
Proof.
  revert mk rm st. induction ms as [|m ms IH]; intros mk rm st.
  - simpl. rewrite !app_nil_r. now destruct st.
  - simpl. unfold bind, call_receiver. simpl.
    destruct (receiver m); [destruct (has_flag REMOVE_DELIVERED m)|];
      rewrite IH; destruct (loop_ids ms) as [k r]; simpl;
      rewrite <- ?app_assoc; reflexivity.
Qed.

Lemma loop_ids_mark ms x :
  In x (fst (loop_ids ms)) <->
  exists m, In m ms /\ receiver m = true /\ has_flag REMOVE_DELIVERED m = false
            /\ message_id m = x.
Proof.
  induction ms as [|m ms IH]; simpl.
  - split; [tauto | intros [m [[] _]]].
  - destruct (loop_ids ms) as [k r]. simpl in *.
    destruct (receiver m) eqn:Hr; [destruct (has_flag REMOVE_DELIVERED m) eqn:Hf|];
      simpl; rewrite ?IH; split.
    + intros [m' ?]. exists m'. tauto.
    + intros [m' [[<-|Hin] H]]; [rewrite Hf in H; intuition discriminate|eauto].
    + intros [<-|[m' ?]]; [exists m; tauto | exists m'; tauto].
    + intros [m' [[<-|Hin] H]]; [left; tauto | right; eauto].
    + intros [m' ?]. exists m'. tauto.
    + intros [m' [[<-|Hin] H]]; [rewrite Hr in H; intuition discriminate|eauto].
Qed.

Lemma loop_ids_remove ms x :
  In x (snd (loop_ids ms)) <->
  exists m, In m ms /\ receiver m = true /\ has_flag REMOVE_DELIVERED m = true
            /\ message_id m = x.
Proof.
  induction ms as [|m ms IH]; simpl.
  - split; [tauto | intros [m [[] _]]].
  - destruct (loop_ids ms) as [k r]. simpl in *.
    destruct (receiver m) eqn:Hr; [destruct (has_flag REMOVE_DELIVERED m) eqn:Hf|];
      simpl; rewrite ?IH; split.
    + intros [<-|[m' ?]]; [exists m; tauto | exists m'; tauto].
    + intros [m' [[<-|Hin] H]]; [left; tauto | right; eauto].
    + intros [m' ?]. exists m'. tauto.
    + intros [m' [[<-|Hin] H]]; [rewrite Hf in H; intuition discriminate|eauto].
    + intros [m' ?]. exists m'. tauto.
    + intros [m' [[<-|Hin] H]]; [rewrite Hr in H; intuition discriminate|eauto].
Qed.
End Delivery.

Lemma mark_rows_nil gamespace ms : mark_rows gamespace [] ms = ms.
Proof.
  induction ms as [|m ms IH]; [reflexivity|].
  unfold mark_rows in *. simpl. rewrite andb_false_r. now f_equal.
Qed.

Lemma remove_rows_nil gamespace ms : remove_rows gamespace [] ms = ms.
Proof.
  induction ms as [|m ms IH]; [reflexivity|].
  unfold remove_rows in *. simpl. rewrite andb_false_r. simpl. now f_equal.
Qed.

Definition storage_events (es : list event) : Prop :=
  Forall (fun e => exists k s, e = EvStorage k s) es.

(** The guarded UPDATE / DELETE of [read_incoming_messages]. *)
Lemma guarded_step_ok (f : list Z -> list message_row -> list message_row) k s
  ids st u st' :
  f [] (messages (st_db st)) = messages (st_db st) ->
  (match ids with
   | [] => ret tt
   | _ => db_call k s (fun d => (Ok tt, set_messages (f ids (messages d)) d))
   end) st = (Ok u, st') ->
  messages (st_db st') = f ids (messages (st_db st)) /\
  st_db st' = set_messages (messages (st_db st')) (st_db st) /\
  exists new, st_trace st' = (new ++ st_trace st)%list /\ storage_events new.
Proof.
  intros Hnil H. destruct ids as [|i ids].
  - unfold ret in H. inversion H; subst. split; [now rewrite Hnil|].
    split; [now destruct (st_db st') |].
    exists []. split; [reflexivity | constructor].
  - apply db_call_ok in H as [_ [Hf Htr]]. inversion Hf as [Hd].
    split; [reflexivity|]. split; [reflexivity|].
    exists [EvStorage k s]. split; [exact Htr|].
    repeat constructor. eauto.
Qed.

(** A successful [read_incoming_messages]: the rows after the call, and the
    events it issued. *)
Lemma read_incoming_messages_ok gamespace recipient_class recipient receiver st st' :
  read_incoming_messages gamespace recipient_class recipient receiver st = (Ok tt, st') ->
  let N := filter (undelivered_where gamespace recipient_class recipient)
                  (messages (st_db st)) in
  messages (st_db st') =
    remove_rows gamespace (snd (loop_ids receiver N))
      (mark_rows gamespace (fst (loop_ids receiver N)) (messages (st_db st))) /\
  st_db st' = set_messages (messages (st_db st')) (st_db st) /\
  exists new,
    st_trace st' =
      (new ++ rev (map EvReceiver N)
           ++ EvStorage SQuery "SELECT FROM messages FOR UPDATE (read_incoming_messages)"
           :: st_trace st)%list /\
    storage_events new.
Proof.
  intros H. cbv zeta.
  apply on_db_error_ok, with_tx_ok in H.
  apply bind_ok in H as [msgs [st1 [H1 H]]].
  apply db_call_ok in H1 as [_ [Hsel Htr1]]. inversion Hsel as [[Hmsgs Hd1]].
  apply bind_ok in H as [ids [st2 [H2 H]]].
  rewrite receive_loop_run in H2. inversion H2; subst ids st2. clear H2 Hsel.
  subst msgs. simpl in H.
  apply bind_ok in H as [u3 [st3 [H3 H]]].
  apply guarded_step_ok in H3; [|apply mark_rows_nil].
  destruct H3 as [Hm3 [Hd3 [new3 [Htr3 Hs3]]]].
  apply bind_ok in H as [u4 [st4 [H4 H]]].
  apply guarded_step_ok in H4; [|apply remove_rows_nil].
  destruct H4 as [Hm4 [Hd4 [new4 [Htr4 Hs4]]]].
  apply db_call_ok in H as [_ [Hc Htr5]]. inversion Hc as [Hd5].
  simpl in Hm3. split.
  - rewrite Hm4, Hm3, <- Hd1. reflexivity.
  - split.
    + rewrite Hd4, Hd3. simpl. rewrite <- Hd1. now destruct (st_db st).
    + exists (EvStorage SCommit "COMMIT" :: new4 ++ new3)%list. split.
      * rewrite Htr5, Htr4, Htr3. simpl. rewrite Htr1.
        rewrite !app_assoc. reflexivity.
      * constructor; [eauto|]. apply Forall_app. auto.
Qed.

Lemma In_remove_rows gamespace ids x l :
  In x (remove_rows gamespace ids l) <->
  In x l /\ ~ (gamespace_id x = gamespace /\ In (message_id x) ids).
Proof.
  unfold remove_rows. rewrite filter_In, negb_true_iff, <- not_true_iff_false,
    andb_true_iff, Z.eqb_eq, mem_Z_In. tauto.
Qed.

Lemma In_mark_rows gamespace ids x l :
  In x (mark_rows gamespace ids l) <->
  exists y, In y l /\
    x = (if (gamespace_id y =? gamespace) && mem_Z (message_id y) ids
         then set_delivered y else y).
Proof.
  unfold mark_rows. rewrite in_map_iff. split; intros [y [H1 H2]]; eauto.
Qed.

Lemma undelivered_where_true gamespace recipient_class recipient m :
  undelivered_where gamespace recipient_class recipient m = true ->
  gamespace_id m = gamespace /\ message_delivered m = false /\
  incoming_where gamespace recipient_class recipient m = true.
Proof.
  unfold undelivered_where, incoming_where. rewrite !andb_true_iff, negb_true_iff,
    Z.eqb_eq. tauto.
Qed.

(** C3: let N be the undelivered messages of the recipient (ids being the
    table's primary key).  After [read_incoming_messages] succeeds: no row
    carries the id of a message of N the receiver accepted and that has the
    remove-on-delivery flag; an accepted message without that flag is in the
    table with [delivered = true] (all else unchanged); a message of N the
    receiver declined is in the table unchanged, still undelivered, and read
    back by [list_incoming_messages] with a limit covering the table; and
    every message handed to the receiver is a message of N, hence
    undelivered. *)
Theorem read_incoming_messages_delivery :
  forall gamespace recipient_class recipient receiver st st',
    NoDup (map message_id (messages (st_db st))) ->
    read_incoming_messages gamespace recipient_class recipient receiver st = (Ok tt, st') ->
    let N := filter (undelivered_where gamespace recipient_class recipient)
                    (messages (st_db st)) in
    (forall m, In m N -> receiver m = true -> has_flag REMOVE_DELIVERED m = true ->
       forall m', In m' (messages (st_db st')) -> message_id m' <> message_id m) /\
    (forall m, In m N -> receiver m = true -> has_flag REMOVE_DELIVERED m = false ->
       In (set_delivered m) (messages (st_db st'))) /\
    (forall m, In m N -> receiver m = false ->
       In m (messages (st_db st')) /\ message_delivered m = false /\
       exists rows,
         list_incoming_rows gamespace recipient_class recipient
           (Z.of_nat (length (messages (st_db st')))) (st_db st') = Ok rows /\
         In m rows) /\
    (exists added, st_trace st' = (added ++ st_trace st)%list /\
       forall m, In (EvReceiver m) added -> In m N /\ message_delivered m = false).
Proof.
  intros g rc r receiver st st' Hnd H N.
  destruct (read_incoming_messages_ok _ _ _ _ _ _ H) as [Hfin [_ [new [Htr Hnew]]]].
  fold N in Hfin, Htr.
  set (ms := messages (st_db st)) in *.
  assert (HN : forall m, In m N -> In m ms /\ gamespace_id m = g /\
                 message_delivered m = false /\ incoming_where g rc r m = true).
  { intros m Hm. unfold N in Hm. apply filter_In in Hm as [Hm Hw].
    apply undelivered_where_true in Hw. tauto. }
  assert (Huniq : forall m m0, In m N -> In m0 ms -> message_id m0 = message_id m -> m0 = m).
  { intros m m0 Hm Hm0 E. apply (NoDup_map_inj message_id ms); auto. apply HN, Hm. }
  (* the id of a message of N is collected only for that message *)
  assert (HK : forall m, In m N -> In (message_id m) (fst (loop_ids receiver N)) ->
                 receiver m = true /\ has_flag REMOVE_DELIVERED m = false).
  { intros m Hm HK. apply loop_ids_mark in HK as [m0 [Hm0 [Hr [Hf E]]]].
    assert (m0 = m) by (apply Huniq; [exact Hm | apply HN, Hm0 | exact E]).
    subst m0. auto. }
  assert (HR : forall m, In m N -> In (message_id m) (snd (loop_ids receiver N)) ->
                 receiver m = true /\ has_flag REMOVE_DELIVERED m = true).
  { intros m Hm HR. apply loop_ids_remove in HR as [m0 [Hm0 [Hr [Hf E]]]].
    assert (m0 = m) by (apply Huniq; [exact Hm | apply HN, Hm0 | exact E]).
    subst m0. auto. }
  split; [|split; [|split]].
  - intros m Hm Hr Hf m' Hm' E. rewrite Hfin in Hm'.
    apply In_remove_rows in Hm' as [Hm' Hnot]. apply Hnot.
    apply In_mark_rows in Hm' as [y [Hy ->]].
    assert (Hym : y = m).
    { apply Huniq; auto.
      destruct ((gamespace_id y =? g) && mem_Z (message_id y) _); exact E. }
    subst y. destruct (HN m Hm) as [_ [Hg _]].
    assert (HinR : In (message_id m) (snd (loop_ids receiver N)))
      by (apply loop_ids_remove; eauto 6).
    destruct ((gamespace_id m =? g) && mem_Z (message_id m) _); simpl; auto.
  - intros m Hm Hr Hf. rewrite Hfin. destruct (HN m Hm) as [Hms [Hg _]].
    apply In_remove_rows. split.
    + apply In_mark_rows. exists m. split; [exact Hms|].
      assert (HinK : In (message_id m) (fst (loop_ids receiver N)))
        by (apply loop_ids_mark; eauto 6).
      apply mem_Z_In in HinK. rewrite HinK, Hg, Z.eqb_refl. reflexivity.
    + simpl. intros [_ HinR]. apply HR in HinR as [_ Hf']; [congruence | exact Hm].
  - intros m Hm Hr. destruct (HN m Hm) as [Hms [Hg [Hd Hw]]].
    assert (Hin : In m (messages (st_db st'))).
    { rewrite Hfin. apply In_remove_rows. split.
      - apply In_mark_rows. exists m. split; [exact Hms|].
        destruct (mem_Z (message_id m) (fst (loop_ids receiver N))) eqn:E.
        + apply mem_Z_In, HK in E as [Hr' _]; [congruence | exact Hm].
        + rewrite andb_false_r. reflexivity.
      - intros [_ HinR]. apply HR in HinR as [Hr' _]; [congruence | exact Hm]. }
    split; [exact Hin|]. split; [exact Hd|].
    apply list_incoming_rows_all; assumption.
  - exists (new ++ rev (map EvReceiver N)
              ++ [EvStorage SQuery "SELECT FROM messages FOR UPDATE (read_incoming_messages)"])%list.
    split.
    + rewrite Htr, <- !app_assoc. reflexivity.
    + intros m Hm. apply in_app_or in Hm as [Hm|Hm].
      * unfold storage_events in Hnew. rewrite Forall_forall in Hnew.
        destruct (Hnew _ Hm) as [k [s' E]]. discriminate.
      * apply in_app_or in Hm as [Hm|[Hm|[]]]; [|discriminate].
        apply in_rev, in_map_iff in Hm as [m0 [E Hm0]]. inversion E; subst m0.
        split; [exact Hm0 | apply HN, Hm0].
Qed.

Definition ri_remove : message_row := mk_msg 1 1 "user" "5" "9" 100 false [REMOVE_DELIVERED].
Definition ri_mark : message_row := mk_msg 2 1 "user" "5" "9" 101 false [].
Definition ri_declined : message_row := mk_msg 3 1 "user" "5" "9" 102 false [].
Definition ri_old : message_row := mk_msg 4 1 "user" "5" "9" 99 true [].

Definition ri_state : state := mk_state (mk_db [ri_remove; ri_mark; ri_declined; ri_old] [] []).

(** A receiver that accepts every message but the one with id 3. *)
Definition ri_receiver (m : message_row) : bool := negb (message_id m =? 3).

Lemma read_incoming_messages_delivery_witness :
  let st' := snd (read_incoming_messages 1 "user" "5" ri_receiver ri_state) in
  NoDup (map message_id (messages (st_db ri_state))) /\
  read_incoming_messages 1 "user" "5" ri_receiver ri_state = (Ok tt, st') /\
  In (set_delivered ri_mark) (messages (st_db st')) /\
  In ri_declined (messages (st_db st')).
Proof.
  intros st'.
  assert (Hnd : NoDup (map message_id (messages (st_db ri_state))))
    by (simpl; repeat constructor; simpl; lia).
  assert (Hrun : read_incoming_messages 1 "user" "5" ri_receiver ri_state = (Ok tt, st'))
    by (vm_compute; reflexivity).
  destruct (read_incoming_messages_delivery 1 "user" "5" ri_receiver ri_state st' Hnd Hrun)
    as [_ [Hmark [Hdecl _]]].
  split; [exact Hnd|]. split; [exact Hrun|]. split.
  - apply Hmark; [vm_compute; tauto | reflexivity | reflexivity].
  - apply Hdecl; [vm_compute; tauto | reflexivity].
Defined.

Example read_incoming_messages_run :
  messages (st_db (snd (read_incoming_messages 1 "user" "5" ri_receiver ri_state)))
    = [set_delivered ri_mark; ri_declined; ri_old].
Proof. vm_compute. reflexivity. Qed.

(** ** Tenant frame of the operations that scope their statements *)

(** The rows of gamespaces other than [g]. *)
Definition foreign_rows (g : Z) (d : db)
  : list message_row * list group_row * list participant_row :=
  (filter (fun m => negb (gamespace_id m =? g)) (messages d),
   filter (fun x => negb (g_gamespace_id x =? g)) (groups d),
   filter (fun p => negb (p_gamespace_id p =? g)) (group_participants d)).

Lemma filter_filter_keep {A} (p q : A -> bool) l :
  (forall x, p x = true -> q x = true) -> filter p (filter q l) = filter p l.
Proof.
  intros Hpq. induction l as [|a l IH]; simpl; [reflexivity|].
  destruct (q a) eqn:Hq; simpl; rewrite ?IH; [reflexivity|].
  destruct (p a) eqn:Hp; [|reflexivity]. apply Hpq in Hp. congruence.
Qed.

Lemma filter_mark_rows g ids ms :
  filter (fun m => negb (gamespace_id m =? g)) (mark_rows g ids ms)
  = filter (fun m => negb (gamespace_id m =? g)) ms.
Proof.
  induction ms as [|m ms IH]; [reflexivity|]. unfold mark_rows in *. simpl.
  destruct (gamespace_id m =? g) eqn:E; simpl.
  - destruct (mem_Z (message_id m) ids); simpl; rewrite E; simpl; exact IH.
  - rewrite E. simpl. now f_equal.
Qed.

Lemma on_db_error_err {A} mk (m : M A) st e st' :
  on_db_error mk m st = (Err e, st') -> exists e', m st = (Err e', st').
Proof.
  unfold on_db_error, catch. destruct (m st) as [[a|e'] st1]; [discriminate|].
  destruct e'; unfold raise; intros H; inversion H; subst; eauto.
Qed.

(** [delete_messages_like] leaves the rows of other gamespaces. *)
Lemma delete_messages_like_frame g cls pat st :
  foreign_rows g (st_db (snd (delete_messages_like g cls pat st)))
  = foreign_rows g (st_db st).
Proof.
  unfold delete_messages_like, on_db_error, catch, db_call.
  destruct (next_fault st); simpl; [reflexivity|].
  unfold foreign_rows. simpl. f_equal. f_equal.
  apply filter_filter_keep. intros m Hm. apply negb_true_iff in Hm.
  rewrite Hm, !andb_false_r. reflexivity.
Qed.

(** [accounts_deleted] with [gamespace_only] leaves the rows of other
    gamespaces. *)
Lemma accounts_deleted_frame g accounts st :
  foreign_rows g (st_db (snd (accounts_deleted g accounts true st)))
  = foreign_rows g (st_db st).
Proof.
  unfold accounts_deleted, on_db_error, catch, db_call.
  destruct (next_fault st); simpl; [reflexivity|].
  unfold foreign_rows. simpl. f_equal.
  apply filter_filter_keep. intros p Hp. apply negb_true_iff in Hp.
  rewrite Hp. reflexivity.
Qed.

Lemma with_tx_err {A} (m : M A) st e st' :
  with_tx m st = (Err e, st') -> st_db st' = st_db st.
Proof.
  unfold with_tx. destruct (m st) as [[a|e'] st1]; intros H; inversion H; reflexivity.
Qed.

(** [read_incoming_messages] leaves the rows of other gamespaces, whether it
    commits or rolls back. *)
Lemma read_incoming_messages_frame g rc r receiver st :
  foreign_rows g (st_db (snd (read_incoming_messages g rc r receiver st)))
  = foreign_rows g (st_db st).
Proof.
  destruct (read_incoming_messages g rc r receiver st) as [[u|e] st'] eqn:H; simpl.
  - destruct u.
    destruct (read_incoming_messages_ok _ _ _ _ _ _ H) as [Hfin [Hd _]].
    unfold foreign_rows. rewrite Hd. simpl. rewrite Hfin. f_equal. f_equal.
    unfold remove_rows. rewrite filter_filter_keep.
    + apply filter_mark_rows.
    + intros m Hm. apply negb_true_iff in Hm. rewrite Hm. reflexivity.
  - apply on_db_error_err in H as [e' H]. apply with_tx_err in H. now rewrite H.
Qed.

(** * The remaining operations of [history.py] and [group.py] *)

(** ** Messages *)

(** The JSON value [add_message] receives as [payload]: an object, or any
    other JSON value. *)
Inductive json_payload :=
| JDict (kvs : pydict)
| JOther.

(** [add_message]: the payload must be a dict; the row is inserted, with the
    payload as its [message_payload], and the generated id returned.  [flags]
    are the tokens [flags.dump()] writes. *)
Definition add_message (gamespace sender : Z) (message_uuid recipient_class recipient_key : string)
  (time : Z) (message_type : string) (payload : json_payload) (flags : list string)
  (delivered : bool) : M Z :=
  match payload with
  | JOther => raise (MessageError 400 "payload should be a dict")
  | JDict kvs =>
      on_db_error (fun s => MessageError 500 ("Failed to add message: " ++ s))
        (db_call SInsert "INSERT INTO messages"
           (fun d => (Ok (next_id d),
              bump_id (set_messages
                (messages d ++
                   [{| message_id := next_id d; gamespace_id := gamespace;
                       message_uuid := message_uuid;
                       message_recipient_class := recipient_class;
                       message_sender := str_of_Z sender;
                       message_recipient := recipient_key; message_time := time;
                       message_type := message_type; message_payload := kvs;
                       message_delivered := delivered;
                       message_flags := flags |}]) d))))
  end.

(** [get_message] *)
Definition get_message (gamespace mid : Z) : M message_row :=
  message <- on_db_error (fun s => MessageError 500 ("Failed to get a message: " ++ s))
               (db_call SGet "SELECT FROM messages (get_message)"
                  (fun d => (Ok (find (fun m => (message_id m =? mid)
                                               && (gamespace_id m =? gamespace))
                                      (messages d)), d))) ;;
  match message with
  | None => raise MessageNotFound
  | Some m => ret m
  end.

(** [delete_messages] *)
Definition delete_messages (gamespace : Z) (recipient_class recipient : string) : M unit :=
  on_db_error (fun s => MessageError 500 ("Failed to delete messages: " ++ s))
    (db_call SExecute "DELETE FROM messages (delete_messages)"
       (fun d => (Ok tt, set_messages
          (filter (fun m => negb (incoming_where gamespace recipient_class recipient m))
                  (messages d)) d))).

(** [delete_message] *)
Definition delete_message (gamespace mid : Z) : M unit :=
  on_db_error (fun s => MessageError 500 ("Failed to delete a message: " ++ s))
    (db_call SExecute "DELETE FROM messages (delete_message)"
       (fun d => (Ok tt, set_messages
          (filter (fun m => negb ((message_id m =? mid) && (gamespace_id m =? gamespace)))
                  (messages d)) d))).

(** [list_messages_account_with_count]: the page, then [FOUND_ROWS()] on the
    same connection, which counts the rows of the union before its LIMIT. *)
Definition list_messages_account_with_count (gamespace account_id limit offset : Z)
  : M (list message_row * Z) :=
  msgs <- list_messages_account gamespace account_id limit offset ;;
  count <- on_db_error (fun s => MessageError 500
                          ("Failed to count found rows for account messages: " ++ s))
             (db_call SGet "SELECT FOUND_ROWS()"
                (fun d => (Ok (Z.of_nat (length (account_feed_rows gamespace account_id d))), d))) ;;
  ret (msgs, count).

(** ** Groups *)

(** [new_group]: [(gamespace, group_class, group_key)] is a unique key of
    [groups]; a collision raises [DuplicateError]. *)
Definition new_group (gamespace : Z) (cls key : string) (clustered : bool)
  (cluster_size : Z) : M Z :=
  catch (db_call SInsert "INSERT INTO groups"
           (fun d =>
              if existsb (fun g => (g_gamespace_id g =? gamespace)
                                   && String.eqb (group_class g) cls
                                   && String.eqb (group_key g) key) (groups d)
              then (Err DuplicateError, d)
              else (Ok (next_id d),
                    bump_id (set_groups
                      (groups d ++ [{| group_id := next_id d; g_gamespace_id := gamespace;
                                       group_class := cls; group_key := key;
                                       group_clustered := clustered;
                                       group_cluster_size := cluster_size |}]) d))))
        (fun e => match e with
                  | DuplicateError => raise GroupExistsError
                  | DatabaseError s => raise (GroupError 500 ("Failed to add a group: " ++ s))
                  | e' => raise e'
                  end).

Definition group_or_not_found (g : option group_row) : M group_adapter :=
  match g with
  | None => raise GroupNotFound
  | Some g => ret (GroupAdapter g)
  end.

(** [get_group] *)
Definition get_group (gamespace gid : Z) : M group_adapter :=
  g <- on_db_error (fun s => GroupError 500 ("Failed to get a group: " ++ s))
         (db_call SGet "SELECT FROM groups (get_group)"
            (fun d => (Ok (find (fun g => (group_id g =? gid) && (g_gamespace_id g =? gamespace))
                                (groups d)), d))) ;;
  group_or_not_found g.

(** [find_group] *)
Definition find_group (gamespace : Z) (cls key : string) : M group_adapter :=
  g <- on_db_error (fun s => GroupError 500 ("Failed to find a group: " ++ s))
         (db_call SGet "SELECT FROM groups (find_group)"
            (fun d => (Ok (find (fun g => (g_gamespace_id g =? gamespace)
                                         && String.eqb (group_class g) cls
                                         && String.eqb (group_key g) key)
                                (groups d)), d))) ;;
  group_or_not_found g.

(** [list_groups] *)
Definition list_groups (gamespace : Z) (cls : string) : M (list group_adapter) :=
  gs <- on_db_error (fun s => GroupError 500 ("Failed to list groups: " ++ s))
          (db_call SQuery "SELECT FROM groups (list_groups)"
             (fun d => (Ok (filter (fun g => String.eqb (group_class g) cls
                                             && (g_gamespace_id g =? gamespace))
                                   (groups d)), d))) ;;
  ret (map GroupAdapter gs).

(** Whether another group of [gamespace] already holds [(cls, key)]: the
    UPDATE of group [gid] to that class and key would break the unique key
    [(gamespace, group_class, group_key)]. *)
Definition group_key_taken (gamespace gid : Z) (cls key : string) (d : db) : bool :=
  existsb (fun g => (g_gamespace_id g =? gamespace) && negb (group_id g =? gid)
                    && String.eqb (group_class g) cls && String.eqb (group_key g) key)
          (groups d).

(** [update_group].  A colliding UPDATE is refused by the storage with its
    duplicate-entry error, a [DatabaseError], which the [except DatabaseError]
    turns into [GroupError(500, ...)]. *)
Definition update_group (gamespace gid : Z) (cls key : string) (cluster_size : Z)
  : M unit :=
  on_db_error (fun s => GroupError 500 ("Failed to update a group: " ++ s))
    (db_call SExecute "UPDATE groups"
       (fun d =>
          if existsb (fun g => (g_gamespace_id g =? gamespace) && (group_id g =? gid)) (groups d)
             && group_key_taken gamespace gid cls key d
          then (Err (DatabaseError "Duplicate entry"), d)
          else (Ok tt, set_groups
            (map (fun g => if (g_gamespace_id g =? gamespace) && (group_id g =? gid)
                           then {| group_id := group_id g; g_gamespace_id := g_gamespace_id g;
                                   group_class := cls; group_key := key;
                                   group_clustered := group_clustered g;
                                   group_cluster_size := cluster_size |}
                           else g) (groups d)) d))).

(** ** Participations *)

(** [map(GroupParticipationAdapter, rows)] *)
Fixpoint adapt_participants (ps : list participant_row) : option (list participation) :=
  match ps with
  | [] => Some []
  | p :: ps' =>
      match GroupParticipationAdapter (participant_dict p), adapt_participants ps' with
      | Some a, Some l => Some (a :: l)
      | _, _ => None
      end
  end.

(** [get_group_participation] *)
Definition get_group_participation (gamespace pid : Z) : M participation :=
  participant <-
    on_db_error (fun s => GroupError 500 ("Failed to get group participant: " ++ s))
      (db_call SGet "SELECT FROM group_participants (get_group_participation)"
         (fun d => (Ok (find (fun p => (participation_id p =? pid)
                                      && (p_gamespace_id p =? gamespace))
                             (group_participants d)), d))) ;;
  match participant with
  | None => raise GroupParticipantNotFound
  | Some p => of_option (GroupParticipationAdapter (participant_dict p))
  end.

(** [updated_group_participation] *)
Definition updated_group_participation (gamespace pid : Z) (role : string) : M unit :=
  on_db_error (fun s => GroupError 500 ("Failed to update a group participation: " ++ s))
    (db_call SExecute "UPDATE group_participants"
       (fun d => (Ok tt, set_participants
          (map (fun p => if (p_gamespace_id p =? gamespace) && (participation_id p =? pid)
                         then {| participation_id := participation_id p;
                                 p_gamespace_id := p_gamespace_id p;
                                 p_group_id := p_group_id p;
                                 p_group_class := p_group_class p;
                                 p_group_key := p_group_key p;
                                 participation_account := participation_account p;
                                 participation_role := role;
                                 cluster_id := cluster_id p |}
                         else p) (group_participants d)) d))).

(** [list_group_participants] *)
Definition list_group_participants (gamespace gid : Z) : M (list participation) :=
  ps <- on_db_error (fun s => GroupError 500 ("Failed to list group participants: " ++ s))
          (db_call SQuery "SELECT FROM group_participants (list_group_participants)"
             (fun d => (Ok (filter (fun p => (p_group_id p =? gid)
                                             && (p_gamespace_id p =? gamespace))
                                   (group_participants d)), d))) ;;
  of_option (adapt_participants ps).

(** [list_participants_by_account] *)
Definition list_participants_by_account (gamespace account_id : Z) : M (list participation) :=
  ps <- on_db_error (fun s => GroupError 500 ("Failed to list group account participate: " ++ s))
          (db_call SQuery "SELECT FROM group_participants (list_participants_by_account)"
             (fun d => (Ok (filter (fun p => (participation_account p =? account_id)
                                             && (p_gamespace_id p =? gamespace))
                                   (group_participants d)), d))) ;;
  of_option (adapt_participants ps).

(** The rows of [find_group_with_participation]'s
    [groups LEFT JOIN group_participants ON group_id, gamespace_id and
     participation_account=%s WHERE gamespace_id, group_class, group_key]:
    a group without a matching participant gives one row with NULL
    participant columns. *)
Definition group_participation_rows (gamespace : Z) (cls key : string) (account_id : Z)
  (d : db) : list (group_row * option participant_row) :=
  flat_map (fun g =>
    if (g_gamespace_id g =? gamespace) && String.eqb (group_class g) cls
       && String.eqb (group_key g) key
    then match filter (fun p => (group_id g =? p_group_id p)
                                && (g_gamespace_id g =? p_gamespace_id p)
                                && (participation_account p =? account_id))
                      (group_participants d) with
         | [] => [(g, None)]
         | ps => map (fun p => (g, Some p)) ps
         end
    else [])
    (groups d).

(** [find_group_with_participation]: the first row; no row raises
    [GroupNotFound], a falsy [participation_id] (NULL, or 0) raises
    [GroupParticipantNotFound].  The adapter's group part is read from the
    group's columns and its participation part from the participant's. *)
Definition find_group_with_participation (gamespace : Z) (cls key : string) (account_id : Z)
  : M (group_adapter * participation) :=
  row <- on_db_error (fun s => GroupError 500 ("Failed to find a group: " ++ s))
           (db_call SGet "SELECT FROM groups LEFT JOIN group_participants"
              (fun d => (Ok (hd_error (group_participation_rows gamespace cls key account_id d)), d))) ;;
  match row with
  | None => raise GroupNotFound
  | Some (_, None) => raise GroupParticipantNotFound
  | Some (g, Some p) =>
      if participation_id p =? 0 then raise GroupParticipantNotFound
      else pa <- of_option (GroupParticipationAdapter (participant_dict p)) ;;
           ret (GroupAdapter g, pa)
  end.

(** ** Runs whose storage calls all succeed *)

Lemma find_app_skip {A} (f : A -> bool) l l' :
  Forall (fun x => f x = false) l -> find f (l ++ l') = find f l'.
Proof.
  induction 1 as [|x l Hx _ IH]; simpl; [reflexivity|]. now rewrite Hx.
Qed.

Lemma existsb_false_Forall {A} (f : A -> bool) l :
  existsb f l = false <-> Forall (fun x => f x = false) l.
Proof.
  induction l as [|a l IH]; simpl; [split; auto|].
  rewrite orb_false_iff, IH. split.
  - intros [H1 H2]. now constructor.
  - intros H. inversion H. auto.
Qed.

(** ** Messages: add, get, delete *)



(** After [delete_message gamespace id] succeeds, [get_message gamespace id]
    raises [MessageNotFound], and every row with another id or of another
    gamespace is still in the table. *)
Theorem delete_message_get_message :
  forall gamespace mid st,
    st_faults st = [] ->
    let st1 := snd (delete_message gamespace mid st) in
    fst (delete_message gamespace mid st) = Ok tt /\
    fst (get_message gamespace mid st1) = Err MessageNotFound /\
    (forall m, In m (messages (st_db st)) ->
       message_id m <> mid \/ gamespace_id m <> gamespace -> In m (messages (st_db st1))).
Proof.
  intros g mid st Hf st1. unfold st1, delete_message, on_db_error, catch.
  rewrite (db_call_nf _ _ _ _ Hf). simpl. split; [reflexivity|]. split.
  - unfold get_message, bind, on_db_error, catch.
    rewrite db_call_nf by reflexivity. simpl.
    rewrite find_none_of_forall; [reflexivity|].
    apply Forall_forall. intros m Hm. apply filter_In in Hm as [_ Hm].
    now apply negb_true_iff in Hm.
  - intros m Hm Hne. apply filter_In. split; [exact Hm|].
    apply negb_true_iff, andb_false_iff.
    destruct Hne as [Hne|Hne]; [left|right]; now apply Z.eqb_neq.
Qed.

Lemma delete_message_get_message_witness :
  let st := mk_state (mk_db [to_guild_1; to_guild] [] []) in
  let st1 := snd (delete_message 1 1 st) in
  fst (delete_message 1 1 st) = Ok tt /\
  fst (get_message 1 1 st1) = Err MessageNotFound /\
  (forall m, In m (messages (st_db st)) ->
     message_id m <> 1 \/ gamespace_id m <> 1 -> In m (messages (st_db st1))).
Proof.
  exact (delete_message_get_message 1 1 (mk_state (mk_db [to_guild_1; to_guild] [] [])) eq_refl).
Defined.

(** ** Groups: create, read back, update, delete *)

(** When no group of the gamespace has the class and key, [new_group]
    inserts it and returns the generated id; [find_group] by class and key
    and [get_group] by that id then return it with the attributes given. *)
Theorem new_group_find_group :
  forall gamespace cls key clustered cluster_size st,
    st_faults st = [] ->
    Forall (fun g => ~ (g_gamespace_id g = gamespace /\ group_class g = cls /\
                        group_key g = key)) (groups (st_db st)) ->
    Forall (fun g => group_id g <> next_id (st_db st)) (groups (st_db st)) ->
    let r := new_group gamespace cls key clustered cluster_size st in
    let ga := {| ga_group_id := next_id (st_db st); ga_group_class := cls; ga_key := key;
                 ga_clustered := clustered; ga_cluster_size := cluster_size |} in
    fst r = Ok (next_id (st_db st)) /\
    fst (find_group gamespace cls key (snd r)) = Ok ga /\
    fst (get_group gamespace (next_id (st_db st)) (snd r)) = Ok ga.
Proof.
  intros g cls key cl size st Hf Hnew Hfresh r ga.
  assert (Hex : existsb (fun x => (g_gamespace_id x =? g) && String.eqb (group_class x) cls
                                  && String.eqb (group_key x) key) (groups (st_db st)) = false).
  { apply existsb_false_Forall. eapply Forall_impl; [|exact Hnew]. intros x Hx.
    destruct (g_gamespace_id x =? g) eqn:E1; [|reflexivity].
    destruct (String.eqb (group_class x) cls) eqn:E2; [|reflexivity].
    destruct (String.eqb (group_key x) key) eqn:E3; [|reflexivity].
    apply Z.eqb_eq in E1. apply String.eqb_eq in E2, E3.
    exfalso. apply Hx. repeat split; assumption. }
  unfold r, new_group, catch. rewrite (db_call_nf _ _ _ _ Hf). simpl. rewrite Hex. simpl.
  split; [reflexivity|]. split.
  - unfold find_group, bind, on_db_error, catch.
    rewrite db_call_nf by reflexivity. simpl.
    rewrite find_app_skip; [simpl; rewrite Z.eqb_refl, !String.eqb_refl; reflexivity|].
    apply existsb_false_Forall, Hex.
  - unfold get_group, bind, on_db_error, catch.
    rewrite db_call_nf by reflexivity. simpl.
    rewrite find_app_skip; [simpl; rewrite !Z.eqb_refl; reflexivity|].
    eapply Forall_impl; [|exact Hfresh]. intros x Hx. simpl.
    apply andb_false_iff. left. now apply Z.eqb_neq.
Qed.

Lemma new_group_find_group_witness :
  let r := new_group 1 "clan" "raid" false 1000 (mk_state (mk_db [] [guild] [])) in
  let ga := {| ga_group_id := 42; ga_group_class := "clan"; ga_key := "raid";
               ga_clustered := false; ga_cluster_size := 1000 |} in
  fst r = Ok 42 /\ fst (find_group 1 "clan" "raid" (snd r)) = Ok ga /\
  fst (get_group 1 42 (snd r)) = Ok ga.
Proof.
  apply (new_group_find_group 1 "clan" "raid" false 1000 (mk_state (mk_db [] [guild] []))).
  - reflexivity.
  - repeat constructor. simpl. intros [_ [_ H]]. discriminate.
  - repeat constructor. simpl. discriminate.
Defined.

(** When the gamespace already has a group with the class and key,
    [new_group] raises [GroupExistsError] and leaves the tables as they were. *)
Theorem new_group_duplicate :
  forall gamespace cls key clustered cluster_size st,
    st_faults st = [] ->
    (exists g, In g (groups (st_db st)) /\ g_gamespace_id g = gamespace /\
               group_class g = cls /\ group_key g = key) ->
    fst (new_group gamespace cls key clustered cluster_size st) = Err GroupExistsError /\
    st_db (snd (new_group gamespace cls key clustered cluster_size st)) = st_db st.
Proof.
  intros g cls key cl size st Hf [x [Hin [E1 [E2 E3]]]].
  assert (Hex : existsb (fun x => (g_gamespace_id x =? g) && String.eqb (group_class x) cls
                                  && String.eqb (group_key x) key) (groups (st_db st)) = true).
  { apply existsb_exists. exists x. split; [exact Hin|].
    rewrite E1, E2, E3, Z.eqb_refl, !String.eqb_refl. reflexivity. }
  unfold new_group, catch. rewrite (db_call_nf _ _ _ _ Hf). simpl. rewrite Hex.
  split; reflexivity.
Qed.

Lemma new_group_duplicate_witness :
  fst (new_group 1 "clan" "guild" false 10 (mk_state (mk_db [] [guild] [])))
    = Err GroupExistsError /\
  st_db (snd (new_group 1 "clan" "guild" false 10 (mk_state (mk_db [] [guild] []))))
    = st_db (mk_state (mk_db [] [guild] [])).
Proof.
  apply new_group_duplicate; [reflexivity|].
  exists guild. simpl. auto.
Defined.

Lemma find_map_same {A} (p : A -> bool) (h : A -> A) l :
  (forall x, p (h x) = p x) ->
  find p (map h l) = option_map h (find p l).
Proof.
  intros Hp. induction l as [|a l IH]; simpl; [reflexivity|].
  rewrite Hp. destruct (p a); [reflexivity | exact IH].
Qed.

(** When no other group of the gamespace holds the new class and key,
    [update_group] succeeds and [get_group] then returns the group with the
    new class, key and cluster size and with its [clustered] flag unchanged. *)
Theorem update_group_get_group :
  forall gamespace gid cls key cluster_size st g,
    st_faults st = [] ->
    find (fun x => (group_id x =? gid) && (g_gamespace_id x =? gamespace))
         (groups (st_db st)) = Some g ->
    group_key_taken gamespace gid cls key (st_db st) = false ->
    fst (update_group gamespace gid cls key cluster_size st) = Ok tt /\
    fst (get_group gamespace gid (snd (update_group gamespace gid cls key cluster_size st)))
      = Ok {| ga_group_id := gid; ga_group_class := cls; ga_key := key;
              ga_clustered := group_clustered g; ga_cluster_size := cluster_size |}.
Proof.
  intros gs gid cls key size st g Hf Hfind Hfree.
  unfold update_group, on_db_error, catch. rewrite (db_call_nf _ _ _ _ Hf).
  rewrite Hfree, andb_false_r. simpl.
  split; [reflexivity|].
  unfold get_group, bind, on_db_error, catch. rewrite db_call_nf by reflexivity. simpl.
  rewrite find_map_same.
  - rewrite Hfind. simpl.
    apply find_some in Hfind as [_ Hg]. apply andb_true_iff in Hg as [E1 E2].
    rewrite E1, E2. simpl. apply Z.eqb_eq in E1. now rewrite E1.
  - intros x. rewrite andb_comm.
    destruct ((g_gamespace_id x =? gs) && (group_id x =? gid)) eqn:E; simpl;
      [rewrite andb_comm; reflexivity | apply andb_comm].
Qed.

Lemma update_group_get_group_witness :
  fst (update_group 1 1 "clan" "guild2" 50 (mk_state (mk_db [] [guild; raid] []))) = Ok tt /\
  fst (get_group 1 1 (snd (update_group 1 1 "clan" "guild2" 50
                            (mk_state (mk_db [] [guild; raid] [])))))
    = Ok {| ga_group_id := 1; ga_group_class := "clan"; ga_key := "guild2";
            ga_clustered := group_clustered guild; ga_cluster_size := 50 |}.
Proof.
  apply update_group_get_group; reflexivity.
Defined.

(** A colliding [update_group]: when group [gid] exists and another group of
    the gamespace already holds the new class and key, the storage refuses
    the UPDATE and [update_group] raises [GroupError 500], leaving the tables
    as they were. *)
Theorem update_group_collision :
  forall gamespace gid cls key cluster_size st,
    st_faults st = [] ->
    existsb (fun g => (g_gamespace_id g =? gamespace) && (group_id g =? gid))
            (groups (st_db st)) = true ->
    group_key_taken gamespace gid cls key (st_db st) = true ->
    fst (update_group gamespace gid cls key cluster_size st)
      = Err (GroupError 500 "Failed to update a group: Duplicate entry") /\
    st_db (snd (update_group gamespace gid cls key cluster_size st)) = st_db st.
Proof.
  intros gs gid cls key size st Hf Hex Htaken.
  unfold update_group, on_db_error, catch. rewrite (db_call_nf _ _ _ _ Hf).
  rewrite Hex, Htaken. simpl. split; reflexivity.
Qed.

Definition guild_renamed : group_row :=
  {| group_id := 3; g_gamespace_id := 1; group_class := "clan"; group_key := "guild2";
     group_clustered := false; group_cluster_size := 10 |}.

Lemma update_group_collision_witness :
  fst (update_group 1 1 "clan" "guild2" 50 (mk_state (mk_db [] [guild; guild_renamed] [])))
    = Err (GroupError 500 "Failed to update a group: Duplicate entry") /\
  st_db (snd (update_group 1 1 "clan" "guild2" 50
                (mk_state (mk_db [] [guild; guild_renamed] []))))
    = mk_db [] [guild; guild_renamed] [].
Proof.
  apply (update_group_collision 1 1 "clan" "guild2" 50
           (mk_state (mk_db [] [guild; guild_renamed] []))); reflexivity.
Defined.

(** After [delete_group] succeeds (its message cleanup included), [get_group]
    with the group's id raises [GroupNotFound]. *)
Theorem delete_group_get_group :
  forall gamespace group st,
    st_faults st = [] ->
    fst (delete_group gamespace group st) = Ok tt /\
    fst (get_group gamespace (ga_group_id group) (snd (delete_group gamespace group st)))
      = Err GroupNotFound.
Proof.
  intros g grp st Hf.
  unfold delete_group, delete_messages_like, bind, on_db_error, catch.
  rewrite (db_call_nf _ _ _ _ Hf). simpl.
  split; [reflexivity|].
  unfold get_group, bind, on_db_error, catch. rewrite db_call_nf by reflexivity. simpl.
  rewrite find_none_of_forall; [reflexivity|].
  apply Forall_forall. intros x Hx. apply filter_In in Hx as [_ Hx].
  apply negb_true_iff in Hx. exact Hx.
Qed.

Lemma delete_group_get_group_witness :
  let st := mk_state (mk_db [to_guild_1; to_guild] [guild; raid] []) in
  fst (delete_group 1 (GroupAdapter guild) st) = Ok tt /\
  fst (get_group 1 (ga_group_id (GroupAdapter guild)) (snd (delete_group 1 (GroupAdapter guild) st)))
    = Err GroupNotFound.
Proof.
  exact (delete_group_get_group 1 (GroupAdapter guild)
           (mk_state (mk_db [to_guild_1; to_guild] [guild; raid] [])) eq_refl).
Defined.

(** ** Joining and leaving a group *)

Lemma get_cluster_nf gamespace account gid size st :
  st_faults st = [] ->
  exists cid st',
    get_cluster gamespace account gid size st = (Ok cid, st') /\
    st_faults st' = [] /\
    group_participants (st_db st') = group_participants (st_db st) /\
    messages (st_db st') = messages (st_db st) /\
    next_id (st_db st') = next_id (st_db st).
Proof.
  intros H. unfold get_cluster, next_fault. rewrite H. simpl.
  destruct (find _ _); do 2 eexists; (split; [reflexivity|]); simpl; rewrite H; auto.
Qed.

Ltac run_nf := repeat (rewrite db_call_nf by reflexivity; simpl).

(** A successful [join_group] stores the participation: [find_group_participant]
    for the group and account then returns the stored row, with the generated
    participation id, the account, the role and the cluster id [join_group]
    returned (0 for a group that is not clustered). *)
Theorem join_group_find_group_participant :
  forall gamespace group account role notify authoritative st,
    st_faults st = [] ->
    Forall (fun p => ~ (p_group_id p = ga_group_id group /\ participation_account p = account))
           (group_participants (st_db st)) ->
    exists p,
      fst (join_group gamespace group account role notify authoritative st) = Ok p /\
      (ga_clustered group = false -> pa_cluster_id p = 0) /\
      fst (find_group_participant gamespace (ga_group_id group) account
             (snd (join_group gamespace group account role notify authoritative st))) =
        Ok {| pa_participation_id := str_of_Z (next_id (st_db st));
              pa_group_id := str_of_Z (ga_group_id group);
              pa_group_class := ga_group_class group; pa_group_key := ga_key group;
              pa_cluster_id := pa_cluster_id p;
              pa_account := PInt account; pa_role := PStr role |}.
Proof.
  intros gs grp a role notify auth st Hf Hnew.
  assert (Hskip : forall l, Forall (fun p => ~ (p_group_id p = ga_group_id grp /\
                                                participation_account p = a)) l ->
            existsb (fun p => (p_group_id p =? ga_group_id grp) && (participation_account p =? a)) l
              = false /\
            Forall (fun p => (p_group_id p =? ga_group_id grp) && (participation_account p =? a)
                             && (p_gamespace_id p =? gs) = false) l).
  { intros l Hl. split.
    - apply existsb_false_Forall. eapply Forall_impl; [|exact Hl]. intros p Hp.
      apply andb_false_iff. destruct (p_group_id p =? ga_group_id grp) eqn:E1; [|now left].
      right. apply Z.eqb_neq. intros E2. apply Hp. split; [now apply Z.eqb_eq|exact E2].
    - eapply Forall_impl; [|exact Hl]. intros p Hp.
      destruct (p_group_id p =? ga_group_id grp) eqn:E1; [|reflexivity].
      destruct (participation_account p =? a) eqn:E2; [|reflexivity].
      exfalso. apply Hp. split; now apply Z.eqb_eq. }
  destruct (Hskip _ Hnew) as [Hex Hfind].
  assert (Hcl : exists cid st',
            (if ga_clustered grp then get_cluster gs a (ga_group_id grp) (ga_cluster_size grp)
             else ret 0) st = (Ok cid, st') /\
            (ga_clustered grp = false -> cid = 0) /\
            st_faults st' = [] /\
            group_participants (st_db st') = group_participants (st_db st) /\
            next_id (st_db st') = next_id (st_db st)).
  { destruct (ga_clustered grp).
    - destruct (get_cluster_nf gs a (ga_group_id grp) (ga_cluster_size grp) st Hf)
        as [cid [st' [E [Hf' [Hp [_ Hn]]]]]].
      exists cid, st'. repeat split; auto. discriminate.
    - exists 0, st. repeat split; auto. }
  destruct Hcl as [cid [st' [Ecl [Hc0 [Hf' [Hp' Hn']]]]]].
  remember (join_group gs grp a role notify auth st) as J eqn:EJ.
  unfold join_group, bind at 1 in EJ. rewrite Ecl in EJ.
  unfold bind at 1, catch at 1 in EJ. rewrite (db_call_nf _ _ _ _ Hf') in EJ.
  unfold insert_participant in EJ. rewrite Hp', Hex in EJ. simpl in EJ.
  destruct notify as [|kv notify]; simpl in EJ; subst J; simpl.
  - eexists. split; [reflexivity|]. split; [exact Hc0|].
    unfold find_group_participant, bind, on_db_error, catch. run_nf.
    rewrite find_app_skip by exact Hfind. simpl.
    rewrite !Z.eqb_refl, Hn'. reflexivity.
  - eexists. split; [reflexivity|]. split; [exact Hc0|].
    unfold find_group_participant, bind, on_db_error, catch. run_nf.
    rewrite find_app_skip by exact Hfind. simpl.
    rewrite !Z.eqb_refl, Hn'. reflexivity.
Qed.

Lemma join_group_find_group_participant_witness :
  exists p,
    fst (join_group 1 (GroupAdapter guild) 5 "member" [] false (mk_state (mk_db [] [guild] [])))
      = Ok p /\
    (ga_clustered (GroupAdapter guild) = false -> pa_cluster_id p = 0) /\
    fst (find_group_participant 1 (ga_group_id (GroupAdapter guild)) 5
           (snd (join_group 1 (GroupAdapter guild) 5 "member" [] false
                   (mk_state (mk_db [] [guild] []))))) =
      Ok {| pa_participation_id := str_of_Z (next_id (st_db (mk_state (mk_db [] [guild] []))));
            pa_group_id := str_of_Z (ga_group_id (GroupAdapter guild));
            pa_group_class := ga_group_class (GroupAdapter guild);
            pa_group_key := ga_key (GroupAdapter guild);
            pa_cluster_id := pa_cluster_id p;
            pa_account := PInt 5; pa_role := PStr "member" |}.
Proof.
  exact (join_group_find_group_participant 1 (GroupAdapter guild) 5 "member" [] false
           (mk_state (mk_db [] [guild] [])) eq_refl (Forall_nil _)).
Defined.

Lemma join_cluster_nf gamespace group account st :
  st_faults st = [] ->
  exists cid st',
    (if ga_clustered group
     then get_cluster gamespace account (ga_group_id group) (ga_cluster_size group)
     else ret 0) st = (Ok cid, st') /\
    (ga_clustered group = false -> cid = 0) /\
    st_faults st' = [] /\
    group_participants (st_db st') = group_participants (st_db st) /\
    messages (st_db st') = messages (st_db st).
Proof.
  intros Hf. destruct (ga_clustered group).
  - destruct (get_cluster_nf gamespace account (ga_group_id group) (ga_cluster_size group) st Hf)
      as [cid [st' [E [Hf' [Hp [Hm _]]]]]].
    exists cid, st'. repeat split; auto. discriminate.
  - exists 0, st. repeat split; auto.
Qed.

(** [join_group] for an account that already has a row for the group raises
    [UserAlreadyJoined]; the participants and the messages are left as they
    were (no second row, no notification). *)
Theorem join_group_already_joined :
  forall gamespace group account role notify authoritative st,
    st_faults st = [] ->
    (exists p, In p (group_participants (st_db st)) /\
               p_group_id p = ga_group_id group /\ participation_account p = account) ->
    let r := join_group gamespace group account role notify authoritative st in
    fst r = Err UserAlreadyJoined /\
    group_participants (st_db (snd r)) = group_participants (st_db st) /\
    messages (st_db (snd r)) = messages (st_db st).
Proof.
  intros gs grp a role notify auth st Hf [p [Hin [E1 E2]]] r.
  destruct (join_cluster_nf gs grp a st Hf) as [cid [st' [Ecl [_ [Hf' [Hp' Hm']]]]]].
  assert (Hex : existsb (fun q => (p_group_id q =? ga_group_id grp) && (participation_account q =? a))
                        (group_participants (st_db st')) = true).
  { apply existsb_exists. exists p. rewrite Hp'. split; [exact Hin|].
    now rewrite E1, E2, !Z.eqb_refl. }
  remember r as J eqn:EJ. unfold r, join_group, bind at 1 in EJ. rewrite Ecl in EJ.
  unfold bind at 1, catch at 1 in EJ. rewrite (db_call_nf _ _ _ _ Hf') in EJ.
  unfold insert_participant in EJ. rewrite Hex in EJ. simpl in EJ. subst J. simpl.
  split; [reflexivity|]. split; assumption.
Qed.

Lemma join_group_already_joined_witness :
  let st := mk_state (mk_db [] [guild] [guild_member]) in
  let r := join_group 1 (GroupAdapter guild) 5 "officer" [("k", PInt 1)] false st in
  fst r = Err UserAlreadyJoined /\
  group_participants (st_db (snd r)) = group_participants (st_db st) /\
  messages (st_db (snd r)) = messages (st_db st).
Proof.
  apply (join_group_already_joined 1 (GroupAdapter guild) 5 "officer" [("k", PInt 1)] false
           (mk_state (mk_db [] [guild] [guild_member])) eq_refl).
  exists guild_member. simpl. auto.
Defined.

Lemma find_group_participant_found gamespace gid account st p :
  st_faults st = [] ->
  find (fun q => (p_group_id q =? gid) && (participation_account q =? account)
                 && (p_gamespace_id q =? gamespace)) (group_participants (st_db st)) = Some p ->
  find_group_participant gamespace gid account st =
    (Ok {| pa_participation_id := str_of_Z (participation_id p);
           pa_group_id := str_of_Z (p_group_id p);
           pa_group_class := p_group_class p; pa_group_key := p_group_key p;
           pa_cluster_id := cluster_id p;
           pa_account := PInt (participation_account p);
           pa_role := PStr (participation_role p) |},
     {| st_db := st_db st;
        st_trace := EvStorage SGet "SELECT FROM group_participants (find_group_participant)"
                    :: st_trace st;
        st_faults := [] |}).
Proof.
  intros Hf Hfind. unfold find_group_participant, bind, on_db_error, catch.
  rewrite (db_call_nf _ _ _ _ Hf). simpl. rewrite Hfind. reflexivity.
Qed.

(** [leave_group] for an account that has a row for the group (the table
    holding one row per group, account and gamespace) succeeds, and
    [find_group_participant] then raises [GroupParticipantNotFound]; the
    cluster release and the notification do not touch the participants. *)
Theorem leave_group_removes_participant :
  forall gamespace group account notify authoritative st p,
    st_faults st = [] ->
    In p (group_participants (st_db st)) ->
    p_group_id p = ga_group_id group -> participation_account p = account ->
    p_gamespace_id p = gamespace ->
    (forall q, In q (group_participants (st_db st)) -> p_group_id q = ga_group_id group ->
       participation_account q = account -> p_gamespace_id q = gamespace ->
       participation_id q = participation_id p) ->
    let r := leave_group gamespace group account notify authoritative st in
    fst r = Ok tt /\
    fst (find_group_participant gamespace (ga_group_id group) account (snd r))
      = Err GroupParticipantNotFound.
Proof.
  intros gs grp a notify auth st p Hf Hin E1 E2 E3 Huniq r.
  set (f := fun q => (p_group_id q =? ga_group_id grp) && (participation_account q =? a)
                     && (p_gamespace_id q =? gs)).
  assert (Hmatch : forall q, f q = true -> In q (group_participants (st_db st)) ->
                             participation_id q = participation_id p).
  { intros q Hq Hq'. unfold f in Hq. apply andb_true_iff in Hq as [Hq H3].
    apply andb_true_iff in Hq as [H1 H2]. apply Z.eqb_eq in H1, H2, H3. auto. }
  destruct (find f (group_participants (st_db st))) as [p0|] eqn:Hfind.
  2: { exfalso. apply (find_none f _ Hfind) in Hin. unfold f in Hin.
       rewrite E1, E2, E3, !Z.eqb_refl in Hin. discriminate. }
  pose proof (find_some f _ Hfind) as [Hin0 Hf0].
  pose proof (Hmatch p0 Hf0 Hin0) as Hid.
  remember r as R eqn:ER. unfold r, leave_group, bind at 1 in ER.
  rewrite (find_group_participant_found _ _ _ _ _ Hf Hfind) in ER. simpl in ER.
  destruct (negb (cluster_id p0 =? 0)); destruct notify; simpl in ER; subst R; simpl;
    (split; [reflexivity|]);
    unfold find_group_participant, bind, on_db_error, catch; run_nf;
    (rewrite find_none_of_forall; [reflexivity|]);
    apply Forall_forall; intros q Hq; apply filter_In in Hq as [Hq Hkeep];
    (destruct (f q) eqn:Efq; [|exact Efq]);
    rewrite (Hmatch q Efq Hq), <- Hid in Hkeep;
    unfold f in Efq; apply andb_true_iff in Efq as [_ Egs]; rewrite Egs in Hkeep;
    rewrite String.eqb_refl in Hkeep; discriminate.
Qed.

Lemma leave_group_removes_participant_witness :
  let r := leave_group 1 (GroupAdapter guild) 5 [("k", PInt 1)] false
             (mk_state (mk_db [] [guild] [guild_member])) in
  fst r = Ok tt /\
  fst (find_group_participant 1 (ga_group_id (GroupAdapter guild)) 5 (snd r))
    = Err GroupParticipantNotFound.
Proof.
  apply (leave_group_removes_participant 1 (GroupAdapter guild) 5 [("k", PInt 1)] false
           (mk_state (mk_db [] [guild] [guild_member])) guild_member eq_refl).
  - simpl. left. reflexivity.
  - reflexivity.
  - reflexivity.
  - reflexivity.
  - intros q [<-|[]] _ _ _. reflexivity.
Defined.

(** ** Participations: role update, lookups, account deletion *)

(** After [updated_group_participation gamespace pid role] succeeds,
    [get_group_participation gamespace pid] returns the participation with the
    new role and every other field as stored. *)
Theorem updated_group_participation_get :
  forall gamespace pid role st p,
    st_faults st = [] ->
    find (fun q => (participation_id q =? pid) && (p_gamespace_id q =? gamespace))
         (group_participants (st_db st)) = Some p ->
    let r := updated_group_participation gamespace pid role st in
    fst r = Ok tt /\
    fst (get_group_participation gamespace pid (snd r)) =
      Ok {| pa_participation_id := str_of_Z pid;
            pa_group_id := str_of_Z (p_group_id p);
            pa_group_class := p_group_class p; pa_group_key := p_group_key p;
            pa_cluster_id := cluster_id p;
            pa_account := PInt (participation_account p);
            pa_role := PStr role |}.
Proof.
  intros gs pid role st p Hf Hfind r.
  unfold r, updated_group_participation, on_db_error, catch.
  rewrite (db_call_nf _ _ _ _ Hf). simpl. split; [reflexivity|].
  unfold get_group_participation, bind, on_db_error, catch. run_nf.
  rewrite find_map_same.
  - rewrite Hfind. simpl.
    apply find_some in Hfind as [_ Hq]. apply andb_true_iff in Hq as [E1 E2].
    rewrite E1, E2. simpl. apply Z.eqb_eq in E1. now rewrite E1.
  - intros q. rewrite (andb_comm (p_gamespace_id q =? gs)).
    destruct ((participation_id q =? pid) && (p_gamespace_id q =? gs)) eqn:E; simpl;
      [now rewrite E | exact E].
Qed.

Lemma updated_group_participation_get_witness :
  let r := updated_group_participation 1 10 "officer"
             (mk_state (mk_db [] [guild] [guild_member])) in
  fst r = Ok tt /\
  fst (get_group_participation 1 10 (snd r)) =
    Ok {| pa_participation_id := str_of_Z 10;
          pa_group_id := str_of_Z (p_group_id guild_member);
          pa_group_class := p_group_class guild_member;
          pa_group_key := p_group_key guild_member;
          pa_cluster_id := cluster_id guild_member;
          pa_account := PInt (participation_account guild_member);
          pa_role := PStr "officer" |}.
Proof.
  exact (updated_group_participation_get 1 10 "officer"
           (mk_state (mk_db [] [guild] [guild_member])) guild_member eq_refl eq_refl).
Defined.

Lemma flat_map_skip_nil {A B} (p : A -> bool) (h : A -> list B) l :
  (forall x, p x = false -> h x = []) ->
  find p l = None -> flat_map h l = [].
Proof.
  intros Hh. induction l as [|x l IH]; simpl; [reflexivity|].
  destruct (p x) eqn:E; [discriminate|]. intros Hn. now rewrite Hh, IH.
Qed.

Lemma flat_map_hd_find {A B} (p : A -> bool) (h : A -> list B) l g :
  (forall x, p x = false -> h x = []) ->
  find p l = Some g -> h g <> [] -> hd_error (flat_map h l) = hd_error (h g).
Proof.
  intros Hh. induction l as [|x l IH]; simpl; [discriminate|].
  destruct (p x) eqn:E.
  - intros [= <-] Hne. destruct (h x); [contradiction|reflexivity].
  - rewrite (Hh x E). exact IH.
Qed.

(** [find_group_with_participation] raises [GroupNotFound] when the gamespace
    has no group with the class and key, and [GroupParticipantNotFound] when
    the group found has no row for the account. *)
Theorem find_group_with_participation_errors :
  forall gamespace cls key account st,
    st_faults st = [] ->
    let isg := fun g => (g_gamespace_id g =? gamespace) && String.eqb (group_class g) cls
                        && String.eqb (group_key g) key in
    (find isg (groups (st_db st)) = None ->
     fst (find_group_with_participation gamespace cls key account st) = Err GroupNotFound) /\
    (forall g, find isg (groups (st_db st)) = Some g ->
       Forall (fun p => ~ (p_group_id p = group_id g /\ p_gamespace_id p = gamespace /\
                           participation_account p = account))
              (group_participants (st_db st)) ->
       fst (find_group_with_participation gamespace cls key account st)
         = Err GroupParticipantNotFound).
Proof.
  intros gs cls key a st Hf isg.
  assert (Hh : forall g, isg g = false ->
            (fun g => if (g_gamespace_id g =? gs) && String.eqb (group_class g) cls
                            && String.eqb (group_key g) key
                      then match filter (fun p => (group_id g =? p_group_id p)
                                                  && (g_gamespace_id g =? p_gamespace_id p)
                                                  && (participation_account p =? a))
                                        (group_participants (st_db st)) with
                           | [] => [(g, None)]
                           | ps => map (fun p => (g, Some p)) ps
                           end
                      else []) g = []).
  { intros g Hg. unfold isg in Hg. simpl. now rewrite Hg. }
  unfold find_group_with_participation, bind, on_db_error, catch.
  rewrite (db_call_nf _ _ _ _ Hf). simpl. split.
  - intros Hn. unfold group_participation_rows.
    rewrite (flat_map_skip_nil isg _ _ Hh Hn). reflexivity.
  - intros g Hg Hnone. unfold group_participation_rows.
    pose proof (find_some _ _ Hg) as [_ Hgt].
    assert (Hgs : g_gamespace_id g = gs).
    { unfold isg in Hgt. apply andb_true_iff in Hgt as [Hgt _].
      apply andb_true_iff in Hgt as [Hgt _]. now apply Z.eqb_eq. }
    assert (Hfil : filter (fun p => (group_id g =? p_group_id p)
                                    && (g_gamespace_id g =? p_gamespace_id p)
                                    && (participation_account p =? a))
                          (group_participants (st_db st)) = []).
    { clear - Hnone Hgs. revert Hnone. generalize (group_participants (st_db st)).
      intros l Hl. induction Hl as [|p l Hp _ IH]; simpl; [reflexivity|].
      rewrite IH. destruct ((group_id g =? p_group_id p) && (g_gamespace_id g =? p_gamespace_id p)
                            && (participation_account p =? a)) eqn:E; [|reflexivity].
      exfalso. apply Hp. apply andb_true_iff in E as [E E3].
      apply andb_true_iff in E as [E1 E2]. apply Z.eqb_eq in E1, E2, E3.
      repeat split; [now rewrite E1 | now rewrite <- E2 | exact E3]. }
    rewrite (flat_map_hd_find isg _ _ g Hh Hg).
    + simpl. unfold isg in Hgt. rewrite Hgt, Hfil. reflexivity.
    + simpl. unfold isg in Hgt. rewrite Hgt, Hfil. discriminate.
Qed.

Lemma find_group_with_participation_errors_witness :
  fst (find_group_with_participation 1 "clan" "nothere" 5 (mk_state (mk_db [] [guild] [])))
    = Err GroupNotFound /\
  fst (find_group_with_participation 1 "clan" "guild" 5 (mk_state (mk_db [] [guild] [])))
    = Err GroupParticipantNotFound.
Proof.
  split.
  - apply (proj1 (find_group_with_participation_errors 1 "clan" "nothere" 5
                    (mk_state (mk_db [] [guild] [])) eq_refl)).
    reflexivity.
  - apply (proj2 (find_group_with_participation_errors 1 "clan" "guild" 5
                    (mk_state (mk_db [] [guild] [])) eq_refl) guild).
    + reflexivity.
    + constructor.
Defined.

Lemma filter_filter_disjoint {A} (p q : A -> bool) l :
  (forall x, p x = true -> q x = false) -> filter p (filter q l) = [].
Proof.
  intros Hpq. induction l as [|x l IH]; simpl; [reflexivity|].
  destruct (q x) eqn:Hq; simpl; [|exact IH].
  destruct (p x) eqn:Hp; [|exact IH]. rewrite (Hpq x Hp) in Hq. discriminate.
Qed.

(** After [accounts_deleted gamespace accounts gamespace_only] succeeds,
    [list_participants_by_account gamespace a] is empty for every deleted
    account [a]; without [gamespace_only] it is empty in every gamespace. *)
Theorem accounts_deleted_list_participants :
  forall gamespace accounts gamespace_only a st,
    st_faults st = [] ->
    In a accounts ->
    let r := accounts_deleted gamespace accounts gamespace_only st in
    fst r = Ok tt /\
    fst (list_participants_by_account gamespace a (snd r)) = Ok [] /\
    (gamespace_only = false ->
     forall g', fst (list_participants_by_account g' a (snd r)) = Ok []).
Proof.
  intros gs accs only a st Hf Ha r.
  assert (Hmem : mem_Z a accs = true).
  { apply existsb_exists. exists a. split; [exact Ha | apply Z.eqb_refl]. }
  unfold r, accounts_deleted, on_db_error, catch.
  destruct only; rewrite (db_call_nf _ _ _ _ Hf); simpl; (split; [reflexivity|]);
    [split; [|discriminate] | split; [|intros _ g']];
    unfold list_participants_by_account, bind, on_db_error, catch; run_nf;
    (rewrite filter_filter_disjoint; [reflexivity|]);
    intros p Hp; apply andb_true_iff in Hp as [E1 E2]; apply Z.eqb_eq in E1;
    rewrite E1, ?E2, Hmem; reflexivity.
Qed.

Lemma accounts_deleted_list_participants_witness :
  let r := accounts_deleted 1 [5; 6] false (mk_state (mk_db [] [guild] [guild_member])) in
  fst r = Ok tt /\
  fst (list_participants_by_account 1 5 (snd r)) = Ok [] /\
  (false = false -> forall g', fst (list_participants_by_account g' 5 (snd r)) = Ok []).
Proof.
  apply (accounts_deleted_list_participants 1 [5; 6] false 5
           (mk_state (mk_db [] [guild] [guild_member])) eq_refl).
  simpl. left. reflexivity.
Defined.

(** ** Pages of messages: order, bounds, membership *)

(** [ORDER BY key DESC] as a relation between neighbours. *)
Definition desc_by (key : message_row -> Z) (a b : message_row) : Prop := key b <= key a.

Lemma insert_desc_sorted key m l :
  StronglySorted (desc_by key) l -> StronglySorted (desc_by key) (insert_desc key m l).
Proof.
  induction l as [|a l IH]; simpl; intros H.
  - repeat constructor.
  - apply StronglySorted_inv in H as [Hl Ha].
    destruct (key a <? key m) eqn:E.
    + apply Z.ltb_lt in E. constructor; [constructor; assumption|].
      constructor; [unfold desc_by; lia|].
      eapply Forall_impl; [|exact Ha]. unfold desc_by. intros x Hx. lia.
    + apply Z.ltb_ge in E. constructor; [exact (IH Hl)|].
      apply Forall_forall. intros x Hx. apply insert_desc_In in Hx as [<-|Hx].
      * unfold desc_by. lia.
      * exact (proj1 (Forall_forall _ _) Ha x Hx).
Qed.

Lemma sort_desc_sorted key l : StronglySorted (desc_by key) (sort_desc key l).
Proof.
  induction l as [|a l IH]; simpl; [constructor|]. now apply insert_desc_sorted.
Qed.

Lemma insert_desc_perm key m l : Permutation (insert_desc key m l) (m :: l).
Proof.
  induction l as [|a l IH]; simpl; [reflexivity|].
  destruct (key a <? key m); [reflexivity|].
  rewrite IH. apply perm_swap.
Qed.

Lemma sort_desc_perm key l : Permutation (sort_desc key l) l.
Proof.
  induction l as [|a l IH]; simpl; [reflexivity|].
  rewrite insert_desc_perm. now apply perm_skip.
Qed.

Lemma In_firstn_l {A} n (l : list A) x : In x (firstn n l) -> In x l.
Proof.
  intros H. rewrite <- (firstn_skipn n l). apply in_or_app. now left.
Qed.

Lemma In_skipn_l {A} n (l : list A) x : In x (skipn n l) -> In x l.
Proof.
  intros H. rewrite <- (firstn_skipn n l). apply in_or_app. now right.
Qed.

Lemma firstn_sorted {A} (R : A -> A -> Prop) n l :
  StronglySorted R l -> StronglySorted R (firstn n l).
Proof.
  revert n. induction l as [|a l IH]; intros n H; destruct n; simpl; try apply SSorted_nil.
  apply StronglySorted_inv in H as [Hl Ha]. constructor; [exact (IH n Hl)|].
  apply Forall_forall. intros x Hx. apply In_firstn_l in Hx.
  exact (proj1 (Forall_forall _ _) Ha x Hx).
Qed.

Lemma skipn_sorted {A} (R : A -> A -> Prop) n l :
  StronglySorted R l -> StronglySorted R (skipn n l).
Proof.
  revert l. induction n as [|n IH]; intros l H; [exact H|].
  destruct l as [|a l]; simpl; [constructor|].
  apply IH. now apply StronglySorted_inv in H.
Qed.

Lemma NoDup_firstn_l {A} n (l : list A) : NoDup l -> NoDup (firstn n l).
Proof.
  intros H. rewrite <- (firstn_skipn n l) in H. now apply NoDup_app_remove_r in H.
Qed.

Lemma NoDup_skipn_l {A} n (l : list A) : NoDup l -> NoDup (skipn n l).
Proof.
  intros H. rewrite <- (firstn_skipn n l) in H. now apply NoDup_app_remove_l in H.
Qed.

Lemma union_distinct_In x l : In x (union_distinct l) <-> In x l.
Proof.
  induction l as [|a l IH]; simpl; [tauto|].
  rewrite filter_In, IH. split.
  - intros [H|[H _]]; auto.
  - intros [H|H]; [now left|].
    destruct (message_row_eq_dec a x) as [E|E]; [now left|right; auto].
Qed.

Lemma union_distinct_NoDup l : NoDup (union_distinct l).
Proof.
  induction l as [|a l IH]; simpl; [constructor|].
  constructor.
  - rewrite filter_In. intros [_ H].
    destruct (message_row_eq_dec a a); [discriminate|contradiction].
  - now apply NoDup_filter.
Qed.

Lemma sql_limit_ok offset count rows :
  0 <= offset -> 0 <= count ->
  sql_limit offset count rows = Ok (firstn (Z.to_nat count) (skipn (Z.to_nat offset) rows)).
Proof.
  intros Ho Hc. unfold sql_limit.
  replace ((offset <? 0) || (count <? 0)) with false; [reflexivity|].
  symmetry. apply orb_false_iff. split; apply Z.ltb_ge; lia.
Qed.

(** [list_incoming_messages] with a non-negative [limit] returns at most
    [limit] rows, all of the table and addressed to the recipient in the
    gamespace, latest first; when at most [limit] rows are addressed there,
    all of them are returned.  The tables are not changed. *)
Theorem list_incoming_messages_page :
  forall gamespace recipient_class recipient limit st,
    st_faults st = [] -> 0 <= limit ->
    let r := list_incoming_messages gamespace recipient_class recipient limit st in
    exists l,
      fst r = Ok l /\ st_db (snd r) = st_db st /\
      (length l <= Z.to_nat limit)%nat /\
      StronglySorted (desc_by message_time) l /\
      (forall m, In m l -> In m (messages (st_db st)) /\
                           incoming_where gamespace recipient_class recipient m = true) /\
      ((length (filter (incoming_where gamespace recipient_class recipient)
                       (messages (st_db st))) <= Z.to_nat limit)%nat ->
       forall m, In m (messages (st_db st)) ->
                 incoming_where gamespace recipient_class recipient m = true -> In m l).
Proof.
  intros gs rc rcpt limit st Hf Hl r.
  unfold r, list_incoming_messages, on_db_error, catch.
  rewrite (db_call_nf _ _ _ _ Hf). unfold list_incoming_rows.
  rewrite sql_limit_ok by lia. simpl.
  set (rows := sort_desc message_time
                 (filter (incoming_where gs rc rcpt) (messages (st_db st)))).
  exists (firstn (Z.to_nat limit) rows).
  split; [reflexivity|]. split; [reflexivity|]. split; [|split; [|split]].
  - apply firstn_le_length.
  - apply firstn_sorted, sort_desc_sorted.
  - intros m Hm. apply In_firstn_l, sort_desc_In, filter_In in Hm. tauto.
  - intros Hlen m Hm Hw. rewrite firstn_all2.
    + apply sort_desc_In, filter_In. tauto.
    + unfold rows. now rewrite sort_desc_length.
Qed.

Lemma list_incoming_messages_page_witness :
  let r := list_incoming_messages 1 "clan" "guild" 10
             (mk_state (mk_db [to_guild_1; to_guild] [] [])) in
  exists l,
    fst r = Ok l /\ st_db (snd r) = st_db (mk_state (mk_db [to_guild_1; to_guild] [] [])) /\
    (length l <= Z.to_nat 10)%nat /\
    StronglySorted (desc_by message_time) l /\
    (forall m, In m l -> In m (messages (st_db (mk_state (mk_db [to_guild_1; to_guild] [] [])))) /\
                         incoming_where 1 "clan" "guild" m = true) /\
    ((length (filter (incoming_where 1 "clan" "guild")
                     (messages (st_db (mk_state (mk_db [to_guild_1; to_guild] [] []))))) <=
      Z.to_nat 10)%nat ->
     forall m, In m (messages (st_db (mk_state (mk_db [to_guild_1; to_guild] [] [])))) ->
               incoming_where 1 "clan" "guild" m = true -> In m l).
Proof.
  apply (list_incoming_messages_page 1 "clan" "guild" 10
           (mk_state (mk_db [to_guild_1; to_guild] [] []))); [reflexivity | lia].
Defined.

(** [list_incoming_messages] passes [limit] to [LIMIT] unchecked: a negative
    one is refused by the storage, which surfaces as a [MessageError 500]. *)
Theorem list_incoming_messages_negative_limit :
  forall gamespace recipient_class recipient limit st,
    st_faults st = [] -> limit < 0 ->
    exists s, fst (list_incoming_messages gamespace recipient_class recipient limit st)
                = Err (MessageError 500 ("Failed to list incoming messages: " ++ s)).
Proof.
  intros gs rc rcpt limit st Hf Hl.
  unfold list_incoming_messages, on_db_error, catch.
  rewrite (db_call_nf _ _ _ _ Hf). unfold list_incoming_rows, sql_limit.
  replace ((0 <? 0) || (limit <? 0)) with true by (symmetry; apply orb_true_iff; right; now apply Z.ltb_lt).
  simpl. eexists. reflexivity.
Qed.

Lemma list_incoming_messages_negative_limit_witness :
  exists s, fst (list_incoming_messages 1 "clan" "guild" (-1)
                   (mk_state (mk_db [to_guild_1; to_guild] [] [])))
              = Err (MessageError 500 ("Failed to list incoming messages: " ++ s)).
Proof.
  apply (list_incoming_messages_negative_limit 1 "clan" "guild" (-1)
           (mk_state (mk_db [to_guild_1; to_guild] [] []))); [reflexivity | lia].
Defined.

Lemma list_messages_account_nf gamespace account_id limit offset st :
  st_faults st = [] -> 1 <= limit <= 10000 -> 0 <= offset <= 10000 ->
  list_messages_account gamespace account_id limit offset st =
    (Ok (firstn (Z.to_nat limit) (skipn (Z.to_nat offset)
                                     (account_feed_rows gamespace account_id (st_db st)))),
     {| st_db := st_db st;
        st_trace := EvStorage SQuery "SELECT UNION DISTINCT (list_messages_account)"
                    :: st_trace st;
        st_faults := [] |}).
Proof.
  intros Hf Hl Ho. unfold list_messages_account.
  replace ((limit <? 1) || (limit >? 10000) || (offset <? 0) || (offset >? 10000)) with false.
  2: { symmetry. repeat rewrite orb_false_iff.
       rewrite Z.ltb_ge, Z.gtb_ltb, Z.ltb_ge, Z.ltb_ge, Z.gtb_ltb, Z.ltb_ge. lia. }
  unfold on_db_error, catch. rewrite (db_call_nf _ _ _ _ Hf). simpl.
  rewrite sql_limit_ok by lia. reflexivity.
Qed.

(** [list_messages_account] with a valid window returns at most [limit]
    distinct rows of the gamespace, highest id first; each was sent by the
    account, sent to it as a user, or sent to a group (class and key) it
    participates in. *)
Theorem list_messages_account_page :
  forall gamespace account_id limit offset st,
    st_faults st = [] -> 1 <= limit <= 10000 -> 0 <= offset <= 10000 ->
    exists l,
      fst (list_messages_account gamespace account_id limit offset st) = Ok l /\
      (length l <= Z.to_nat limit)%nat /\ NoDup l /\
      StronglySorted (desc_by message_id) l /\
      (forall m, In m l ->
         In m (messages (st_db st)) /\ gamespace_id m = gamespace /\
         (in_account_groups account_id (st_db st) m = true \/
          (message_recipient_class m = CLASS_USER /\
           message_recipient m = str_of_Z account_id) \/
          message_sender m = str_of_Z account_id)).
Proof.
  intros gs a limit offset st Hf Hl Ho.
  rewrite (list_messages_account_nf _ _ _ _ _ Hf Hl Ho). simpl.
  eexists. split; [reflexivity|]. split; [|split; [|split]].
  - apply firstn_le_length.
  - apply NoDup_firstn_l, NoDup_skipn_l. unfold account_feed_rows.
    eapply Permutation_NoDup; [symmetry; apply sort_desc_perm|]. apply union_distinct_NoDup.
  - apply firstn_sorted, skipn_sorted, sort_desc_sorted.
  - intros m Hm. apply In_firstn_l, In_skipn_l in Hm. unfold account_feed_rows in Hm.
    rewrite sort_desc_In, union_distinct_In in Hm.
    apply in_app_or in Hm as [Hm|Hm]; [|apply in_app_or in Hm as [Hm|Hm]];
      apply filter_In in Hm as [Hin Hw]; split; try exact Hin;
      repeat rewrite andb_true_iff in Hw.
    + destruct Hw as [E Hg]. split; [now apply Z.eqb_eq|]. now left.
    + destruct Hw as [[E Hc] Hr]. split; [now apply Z.eqb_eq|].
      right. left. apply String.eqb_eq in Hc, Hr. now split.
    + destruct Hw as [E Hs]. split; [now apply Z.eqb_eq|].
      right. right. now apply String.eqb_eq.
Qed.

Lemma list_messages_account_page_witness :
  exists l,
    fst (list_messages_account 1 9 10 0 (mk_state (mk_db [to_guild_1; to_guild] [] []))) = Ok l /\
    (length l <= Z.to_nat 10)%nat /\ NoDup l /\
    StronglySorted (desc_by message_id) l /\
    (forall m, In m l ->
       In m (messages (st_db (mk_state (mk_db [to_guild_1; to_guild] [] [])))) /\
       gamespace_id m = 1 /\
       (in_account_groups 9 (st_db (mk_state (mk_db [to_guild_1; to_guild] [] []))) m = true \/
        (message_recipient_class m = CLASS_USER /\ message_recipient m = str_of_Z 9) \/
        message_sender m = str_of_Z 9)).
Proof.
  apply (list_messages_account_page 1 9 10 0 (mk_state (mk_db [to_guild_1; to_guild] [] [])));
    [reflexivity | lia | lia].
Defined.

Lemma account_feed_rows_In gamespace account_id d m :
  In m (account_feed_rows gamespace account_id d) <->
  In m (messages d) /\ gamespace_id m = gamespace /\
  (in_account_groups account_id d m = true \/
   (message_recipient_class m = CLASS_USER /\ message_recipient m = str_of_Z account_id) \/
   message_sender m = str_of_Z account_id).
Proof.
  unfold account_feed_rows. rewrite sort_desc_In, union_distinct_In, !in_app_iff, !filter_In.
  rewrite !andb_true_iff, !Z.eqb_eq, !String.eqb_eq. tauto.
Qed.

Lemma account_feed_rows_NoDup gamespace account_id d :
  NoDup (account_feed_rows gamespace account_id d).
Proof.
  unfold account_feed_rows.
  eapply Permutation_NoDup; [symmetry; apply sort_desc_perm|]. apply union_distinct_NoDup.
Qed.

(** [list_messages_account_with_count] with a valid window returns the page
    [list_messages_account] returns and [FOUND_ROWS()], the size of the whole
    feed before its LIMIT: there is a list [feed], without duplicates,
    highest id first, holding exactly the gamespace's rows sent by the
    account, sent to it as a user, or sent to a group (class and key) it
    participates in; the count is its length and the page is its window
    [offset, offset + limit). *)
Theorem list_messages_account_with_count_page :
  forall gamespace account_id limit offset st,
    st_faults st = [] -> 1 <= limit <= 10000 -> 0 <= offset <= 10000 ->
    exists l n feed,
      fst (list_messages_account_with_count gamespace account_id limit offset st) = Ok (l, n) /\
      fst (list_messages_account gamespace account_id limit offset st) = Ok l /\
      NoDup feed /\ StronglySorted (desc_by message_id) feed /\
      (forall m, In m feed <->
         In m (messages (st_db st)) /\ gamespace_id m = gamespace /\
         (in_account_groups account_id (st_db st) m = true \/
          (message_recipient_class m = CLASS_USER /\
           message_recipient m = str_of_Z account_id) \/
          message_sender m = str_of_Z account_id)) /\
      n = Z.of_nat (length feed) /\
      l = firstn (Z.to_nat limit) (skipn (Z.to_nat offset) feed).
Proof.
  intros gs a limit offset st Hf Hl Ho.
  unfold list_messages_account_with_count, bind at 1.
  rewrite (list_messages_account_nf _ _ _ _ _ Hf Hl Ho).
  unfold bind, on_db_error, catch. run_nf.
  exists (firstn (Z.to_nat limit) (skipn (Z.to_nat offset) (account_feed_rows gs a (st_db st)))),
    (Z.of_nat (length (account_feed_rows gs a (st_db st)))), (account_feed_rows gs a (st_db st)).
  split; [reflexivity|]. split; [reflexivity|].
  split; [apply account_feed_rows_NoDup|].
  split; [apply sort_desc_sorted|].
  split; [intros m; apply account_feed_rows_In|].
  split; reflexivity.
Qed.

Lemma list_messages_account_with_count_page_witness :
  exists l n feed,
    fst (list_messages_account_with_count 1 9 10 0
           (mk_state (mk_db [to_guild_1; to_guild] [] []))) = Ok (l, n) /\
    fst (list_messages_account 1 9 10 0 (mk_state (mk_db [to_guild_1; to_guild] [] []))) = Ok l /\
    NoDup feed /\ StronglySorted (desc_by message_id) feed /\
    (forall m, In m feed <->
       In m (messages (st_db (mk_state (mk_db [to_guild_1; to_guild] [] [])))) /\
       gamespace_id m = 1 /\
       (in_account_groups 9 (st_db (mk_state (mk_db [to_guild_1; to_guild] [] []))) m = true \/
        (message_recipient_class m = CLASS_USER /\ message_recipient m = str_of_Z 9) \/
        message_sender m = str_of_Z 9)) /\
    n = Z.of_nat (length feed) /\
    l = firstn (Z.to_nat 10) (skipn (Z.to_nat 0) feed).
Proof.
  apply (list_messages_account_with_count_page 1 9 10 0
           (mk_state (mk_db [to_guild_1; to_guild] [] []))); [reflexivity | lia | lia].
Defined.

(** [MessagesQuery.query(count=True)] with a non-negative window returns
    the number of all matching rows ([FOUND_ROWS()], the window ignored) and
    the items of the window: there is a list [rows] of exactly the matching
    rows (a permutation of them), latest first, whose length is the count;
    the items are all of [rows] when no limit is set, and otherwise its
    window [offset, offset + limit). *)
Theorem messages_query_count :
  forall q st,
    st_faults st = [] -> 0 <= q_offset q -> 0 <= q_limit q ->
    exists items n rows,
      fst (query q false true st) = Ok (QItemsCount items n) /\
      Permutation rows (filter (query_where q) (messages (st_db st))) /\
      StronglySorted (desc_by message_time) rows /\
      n = Z.of_nat (length (filter (query_where q) (messages (st_db st)))) /\
      n = Z.of_nat (length rows) /\
      items = (if q_limit q =? 0 then rows
               else firstn (Z.to_nat (q_limit q)) (skipn (Z.to_nat (q_offset q)) rows)).
Proof.
  intros q st Hf Ho Hl.
  unfold query, bind, on_db_error, catch. rewrite (db_call_nf _ _ _ _ Hf). simpl.
  unfold query_rows.
  set (rows := sort_desc message_time (filter (query_where q) (messages (st_db st)))).
  assert (Hlen : length rows = length (filter (query_where q) (messages (st_db st)))).
  { apply sort_desc_length. }
  destruct (q_limit q =? 0) eqn:E0.
  - simpl. exists rows, (Z.of_nat (length (filter (query_where q) (messages (st_db st))))), rows.
    split; [reflexivity|]. split; [apply sort_desc_perm|]. split; [apply sort_desc_sorted|].
    split; [reflexivity|]. split; [now rewrite Hlen | reflexivity].
  - rewrite sql_limit_ok by assumption. simpl.
    exists (firstn (Z.to_nat (q_limit q)) (skipn (Z.to_nat (q_offset q)) rows)),
      (Z.of_nat (length (filter (query_where q) (messages (st_db st))))), rows.
    split; [reflexivity|]. split; [apply sort_desc_perm|]. split; [apply sort_desc_sorted|].
    split; [reflexivity|]. split; [now rewrite Hlen | reflexivity].
Qed.

Lemma messages_query_count_witness :
  exists items n rows,
    fst (query (window_query 1 1 1) false true (mk_state (mk_db [to_guild_1; to_guild] [] [])))
      = Ok (QItemsCount items n) /\
    Permutation rows (filter (query_where (window_query 1 1 1))
                        (messages (st_db (mk_state (mk_db [to_guild_1; to_guild] [] []))))) /\
    StronglySorted (desc_by message_time) rows /\
    n = Z.of_nat (length (filter (query_where (window_query 1 1 1))
                            (messages (st_db (mk_state (mk_db [to_guild_1; to_guild] [] [])))))) /\
    n = Z.of_nat (length rows) /\
    items = (if q_limit (window_query 1 1 1) =? 0 then rows
             else firstn (Z.to_nat (q_limit (window_query 1 1 1)))
                    (skipn (Z.to_nat (q_offset (window_query 1 1 1))) rows)).
Proof.
  apply (messages_query_count (window_query 1 1 1)
           (mk_state (mk_db [to_guild_1; to_guild] [] []))); simpl; [reflexivity | lia | lia].
Defined.

(** [MessagesQuery.query(one=True)] without a limit returns [None] when no
    row matches, and otherwise a row that matches and has the latest
    [message_time] among the matching rows. *)
Theorem messages_query_one :
  forall q count st,
    st_faults st = [] -> q_limit q = 0 ->
    (filter (query_where q) (messages (st_db st)) = [] ->
     fst (query q true count st) = Ok QNone) /\
    (filter (query_where q) (messages (st_db st)) <> [] ->
     exists m, fst (query q true count st) = Ok (QOne m) /\
       In m (messages (st_db st)) /\ query_where q m = true /\
       forall m', In m' (messages (st_db st)) -> query_where q m' = true ->
                  message_time m' <= message_time m).
Proof.
  intros q count st Hf Hl.
  unfold query, bind, on_db_error, catch. rewrite (db_call_nf _ _ _ _ Hf). simpl.
  unfold query_rows. rewrite Hl. simpl. split.
  - intros E. rewrite E. reflexivity.
  - intros Hne.
    pose proof (sort_desc_sorted message_time (filter (query_where q) (messages (st_db st))))
      as Hs.
    pose proof (sort_desc_length message_time (filter (query_where q) (messages (st_db st))))
      as Hlen.
    assert (Hin : forall x, In x (sort_desc message_time (filter (query_where q) (messages (st_db st))))
                            <-> In x (messages (st_db st)) /\ query_where q x = true).
    { intros x. now rewrite sort_desc_In, filter_In. }
    destruct (sort_desc message_time (filter (query_where q) (messages (st_db st))))
      as [|h t]; simpl.
    + destruct (filter (query_where q) (messages (st_db st))); [contradiction | discriminate].
    + exists h. split; [reflexivity|].
      destruct (proj1 (Hin h) (or_introl eq_refl)) as [H1 H2].
      split; [exact H1|]. split; [exact H2|].
      intros m' Hm' Hw. destruct (proj2 (Hin m') (conj Hm' Hw)) as [<-|Ht]; [lia|].
      apply StronglySorted_inv in Hs as [_ Hall].
      exact (proj1 (Forall_forall _ _) Hall m' Ht).
Qed.

Lemma messages_query_one_witness :
  ((filter (query_where (MessagesQuery 1))
           (messages (st_db (mk_state (mk_db [to_guild_1; to_guild] [] [])))) = [] ->
    fst (query (MessagesQuery 1) true false (mk_state (mk_db [to_guild_1; to_guild] [] [])))
      = Ok QNone) /\
   (filter (query_where (MessagesQuery 1))
           (messages (st_db (mk_state (mk_db [to_guild_1; to_guild] [] [])))) <> [] ->
    exists m, fst (query (MessagesQuery 1) true false
                     (mk_state (mk_db [to_guild_1; to_guild] [] []))) = Ok (QOne m) /\
      In m (messages (st_db (mk_state (mk_db [to_guild_1; to_guild] [] [])))) /\
      query_where (MessagesQuery 1) m = true /\
      forall m', In m' (messages (st_db (mk_state (mk_db [to_guild_1; to_guild] [] [])))) ->
                 query_where (MessagesQuery 1) m' = true -> message_time m' <= message_time m)) /\
  fst (query (MessagesQuery 1) true false (mk_state (mk_db [to_guild_1; to_guild] [] [])))
    = Ok (QOne to_guild).
Proof.
  split.
  - apply (messages_query_one (MessagesQuery 1) false
             (mk_state (mk_db [to_guild_1; to_guild] [] []))); reflexivity.
  - vm_compute. reflexivity.
Defined.

(** After [delete_messages gamespace recipient_class recipient] succeeds,
    [list_incoming_messages] for the same recipient returns nothing. *)
Theorem delete_messages_list_incoming :
  forall gamespace recipient_class recipient limit st,
    st_faults st = [] -> 0 <= limit ->
    let r := delete_messages gamespace recipient_class recipient st in
    fst r = Ok tt /\
    fst (list_incoming_messages gamespace recipient_class recipient limit (snd r)) = Ok [].
Proof.
  intros gs rc rcpt limit st Hf Hl r.
  unfold r, delete_messages, on_db_error, catch. rewrite (db_call_nf _ _ _ _ Hf). simpl.
  split; [reflexivity|].
  unfold list_incoming_messages, on_db_error, catch. run_nf.
  unfold list_incoming_rows, set_messages. cbn [messages]. rewrite filter_filter_disjoint.
  - simpl. rewrite sql_limit_ok by lia. now rewrite firstn_nil.
  - intros m Hm. now rewrite Hm.
Qed.

Lemma delete_messages_list_incoming_witness :
  let r := delete_messages 1 "clan" "guild" (mk_state (mk_db [to_guild_1; to_guild] [] [])) in
  fst r = Ok tt /\ fst (list_incoming_messages 1 "clan" "guild" 100 (snd r)) = Ok [].
Proof.
  apply (delete_messages_list_incoming 1 "clan" "guild" 100
           (mk_state (mk_db [to_guild_1; to_guild] [] []))); [reflexivity | lia].
Defined.

(** ** Tenant isolation of the writes *)

(** [m] leaves the rows of gamespaces other than [g] as they were, whatever
    the fault script and whatever its outcome. *)
Definition keeps_foreign {A} (g : Z) (m : M A) : Prop :=
  forall st, foreign_rows g (st_db (snd (m st))) = foreign_rows g (st_db st).

Lemma kf_ret {A} g (a : A) : keeps_foreign g (ret a).
Proof. intros st. reflexivity. Qed.

Lemma kf_raise {A} g e : keeps_foreign g (raise (A := A) e).
Proof. intros st. reflexivity. Qed.

Lemma kf_bind {A B} g (m : M A) (k : A -> M B) :
  keeps_foreign g m -> (forall a, keeps_foreign g (k a)) -> keeps_foreign g (bind m k).
Proof.
  intros Hm Hk st. unfold bind. specialize (Hm st).
  destruct (m st) as [[a|e] st1]; simpl in *; [now rewrite Hk|exact Hm].
Qed.

Lemma kf_catch {A} g (m : M A) h :
  keeps_foreign g m -> (forall e, keeps_foreign g (h e)) -> keeps_foreign g (catch m h).
Proof.
  intros Hm Hh st. unfold catch. specialize (Hm st).
  destruct (m st) as [[a|e] st1]; simpl in *; [exact Hm|now rewrite Hh].
Qed.

Lemma kf_on_db_error {A} g mk (m : M A) :
  keeps_foreign g m -> keeps_foreign g (on_db_error mk m).
Proof.
  intros Hm. apply kf_catch; [exact Hm|]. intros []; apply kf_raise.
Qed.

Lemma kf_db_call {A} g k s (f : db -> result A * db) :
  (forall d, foreign_rows g (snd (f d)) = foreign_rows g d) ->
  keeps_foreign g (db_call k s f).
Proof.
  intros Hf st. unfold db_call. destruct (next_fault st); [reflexivity|].
  simpl. specialize (Hf (st_db st)). destruct (f (st_db st)) as [r d]. exact Hf.
Qed.

Lemma foreign_filter_keep {A} (gs : A -> Z) g (q : A -> bool) l :
  (forall x, gs x <> g -> q x = true) ->
  filter (fun x => negb (gs x =? g)) (filter q l) = filter (fun x => negb (gs x =? g)) l.
Proof.
  intros Hq. apply filter_filter_keep. intros x Hx. apply Hq.
  apply negb_true_iff, Z.eqb_neq in Hx. exact Hx.
Qed.

Lemma foreign_app_own {A} (gs : A -> Z) g l x :
  gs x = g ->
  filter (fun y => negb (gs y =? g)) (l ++ [x]) = filter (fun y => negb (gs y =? g)) l.
Proof.
  intros E. rewrite filter_app. simpl. rewrite E, Z.eqb_refl. simpl. apply app_nil_r.
Qed.

Lemma foreign_map_own {A} (gs : A -> Z) g (h : A -> A) l :
  (forall x, gs (h x) = gs x) -> (forall x, gs x <> g -> h x = x) ->
  filter (fun y => negb (gs y =? g)) (map h l) = filter (fun y => negb (gs y =? g)) l.
Proof.
  intros Hg Hh. induction l as [|x l IH]; simpl; [reflexivity|].
  rewrite Hg. destruct (gs x =? g) eqn:E; simpl; [exact IH|].
  rewrite Hh by (now apply Z.eqb_neq). now f_equal.
Qed.

Lemma triple_eq {A B C} (a a' : A) (b b' : B) (c c' : C) :
  a = a' -> b = b' -> c = c' -> (a, b, c) = (a', b', c').
Proof. intros -> -> ->. reflexivity. Qed.

Ltac foreign_step :=
  intros d; unfold foreign_rows, set_messages, set_groups, set_participants, bump_id;
  cbn [messages groups group_participants];
  repeat match goal with
         | |- context [if ?c then _ else _] => destruct c
         end;
  cbn [fst snd messages groups group_participants];
  apply triple_eq;
  first [ reflexivity
        | apply foreign_filter_keep; intros x Hx; apply negb_true_iff;
          apply Z.eqb_neq in Hx; unfold incoming_where; rewrite Hx;
          rewrite ?andb_false_r, ?andb_false_l; reflexivity
        | apply foreign_app_own; reflexivity
        | apply foreign_map_own;
          [ intros x; match goal with |- context [if ?c then _ else _] => destruct c end;
            reflexivity
          | intros x Hx; apply Z.eqb_neq in Hx; rewrite Hx;
            rewrite ?andb_false_r, ?andb_false_l; reflexivity ] ].

Lemma kf_get_cluster g gamespace account gid size :
  keeps_foreign g (get_cluster gamespace account gid size).
Proof.
  intros st. unfold get_cluster. destruct (next_fault st); [reflexivity|].
  destruct (find _ _); reflexivity.
Qed.

Lemma kf_leave_cluster g gamespace account gid :
  keeps_foreign g (leave_cluster gamespace account gid).
Proof.
  intros st. unfold leave_cluster. destruct (next_fault st); reflexivity.
Qed.

Lemma kf_bind_account g account p : keeps_foreign g (bind_account_to_group account p).
Proof. intros st. reflexivity. Qed.

Lemma kf_message_queue_add g account rc r mt payload :
  keeps_foreign g (message_queue_add_message g account rc r mt payload).
Proof.
  intros st. unfold message_queue_add_message, foreign_rows. simpl.
  f_equal. f_equal. apply foreign_app_own. reflexivity.
Qed.

Lemma kf_of_option {A} g (o : option A) : keeps_foreign g (of_option o).
Proof. destruct o; intros st; reflexivity. Qed.

Ltac kf_tac :=
  repeat (cbn beta iota zeta;
    match goal with
    | |- keeps_foreign _ (bind _ _) => apply kf_bind; [|intros ?]
    | |- keeps_foreign _ (catch _ _) => apply kf_catch; [|intros []]
    | |- keeps_foreign _ (on_db_error _ _) => apply kf_on_db_error
    | |- keeps_foreign _ (ret _) => apply kf_ret
    | |- keeps_foreign _ (raise _) => apply kf_raise
    | |- keeps_foreign _ (db_call _ _ _) => apply kf_db_call; foreign_step
    | |- keeps_foreign _ (get_cluster _ _ _ _) => apply kf_get_cluster
    | |- keeps_foreign _ (leave_cluster _ _ _) => apply kf_leave_cluster
    | |- keeps_foreign _ (bind_account_to_group _ _) => apply kf_bind_account
    | |- keeps_foreign _ (message_queue_add_message _ _ _ _ _ _) => apply kf_message_queue_add
    | |- keeps_foreign _ (of_option _) => apply kf_of_option
    | |- keeps_foreign _ (if ?c then _ else _) => destruct c
    | |- keeps_foreign _ (match ?x with _ => _ end) => destruct x
    end).

(** The group writes of [GroupsModel] for gamespace [g] ([new_group],
    [update_group], and [delete_group] with its message cleanup) never change
    a message, group or participant row of another gamespace, whatever the
    storage calls do. *)
Theorem groups_writes_keep_foreign :
  forall g,
    (forall cls key clustered size, keeps_foreign g (new_group g cls key clustered size)) /\
    (forall gid cls key size, keeps_foreign g (update_group g gid cls key size)) /\
    (forall group, keeps_foreign g (delete_group g group)).
Proof.
  intros g. repeat split; intros.
  - unfold new_group. kf_tac.
  - unfold update_group. kf_tac.
  - unfold delete_group, delete_messages_like. kf_tac.
Qed.

(** The membership writes of [GroupsModel] for gamespace [g] ([join_group]
    and [leave_group] with their cluster and notification calls,
    [updated_group_participation], and [accounts_deleted] with
    [gamespace_only]) never change a message, group or participant row of
    another gamespace, whatever the storage and cluster calls do. *)
Theorem participation_writes_keep_foreign :
  forall g,
    (forall group account role notify authoritative,
       keeps_foreign g (join_group g group account role notify authoritative)) /\
    (forall group account notify authoritative,
       keeps_foreign g (leave_group g group account notify authoritative)) /\
    (forall pid role, keeps_foreign g (updated_group_participation g pid role)) /\
    (forall accounts, keeps_foreign g (accounts_deleted g accounts true)).
Proof.
  intros g. repeat split; intros.
  - unfold join_group, insert_participant. kf_tac.
  - unfold leave_group, find_group_participant. kf_tac.
  - unfold updated_group_participation. kf_tac.
  - unfold accounts_deleted. kf_tac.
Qed.

(** The deleting and inserting writes of [MessagesHistoryModel] for
    gamespace [g] ([add_message], [delete_messages], [delete_messages_like]
    and [delete_message]) never change a message, group or participant row of
    another gamespace, whatever the storage calls do. *)
Theorem history_writes_keep_foreign :
  forall g,
    (forall sender uuid recipient_class recipient_key time message_type payload flags delivered,
       keeps_foreign g (add_message g sender uuid recipient_class recipient_key time
                                    message_type payload flags delivered)) /\
    (forall recipient_class recipient,
       keeps_foreign g (delete_messages g recipient_class recipient)) /\
    (forall recipient_class recipient_like,
       keeps_foreign g (delete_messages_like g recipient_class recipient_like)) /\
    (forall mid, keeps_foreign g (delete_message g mid)).
Proof.
  intros g. repeat split; intros.
  - unfold add_message. kf_tac.
  - unfold delete_messages. kf_tac.
  - unfold delete_messages_like. kf_tac.
  - unfold delete_message. kf_tac.
Qed.
